(** * Reconciliation handler of the OneAgent operator (pkg/stub/handler.go)

    A shallow embedding of [Handle] and of the functions it calls.  The
    cluster (operator-sdk [query]/[action]), the Dynatrace REST client and
    the clock are collaborators: they are taken as an interface over an
    abstract world state that is threaded through every call, and every
    call is recorded in an event log.  Logging through logrus has no
    influence on control flow and is left out. *)

From Stdlib Require Import ZArith Lia.
From stdpp Require Import base decidable option numbers list strings gmap.

#[local] Set Warnings "-clear-no-such-hyp".

Local Open Scope Z_scope.
Local Open Scope string_scope.

(** ** Go values *)

(** A Go slice or map can be nil, and [reflect.DeepEqual] tells a nil one
    from an empty one: both are options, [None] being nil. *)
Abbreviation slice A := (option (list A)).
Abbreviation gomap V := (option (gmap string V)).

Definition items {A} (s : slice A) : list A := default [] s.

(** [s[i]]: [None] stands for the index-out-of-range panic. *)
Definition index {A} (s : slice A) (i : nat) : option A := items s !! i.

(** [v, ok := m[k]] on a possibly nil map. *)
Definition mapget {V} (m : gomap V) (k : string) : option V :=
  match m with Some g => g !! k | None => None end.

(** [uint16] arithmetic wraps around. *)
Definition uint16 (z : Z) : Z := z mod 65536.

(** ** Errors and panics *)

Inductive error :=
| ApiError (isNotFound : bool) (msg : string)      (* returned by a collaborator *)
| ErrMissingKey (secret key : string)              (* handler.go:328 *)
| ErrTooManyPods (actual : nat).                   (* handler.go:189 *)

Definition IsNotFound (e : error) : bool :=
  match e with ApiError nf _ => nf | _ => false end.

Inductive panic := IndexOutOfRange | NilDereference.

#[global] Instance error_eq_dec : EqDecision error.
Proof. solve_decision. Defined.

(** ** Kubernetes objects, restricted to the fields the handler reads or writes *)

Record SecretKeySelector := {
  sks_Name : string;               (* LocalObjectReference.Name *)
  sks_Key : string;
  sks_Optional : option bool }.

Record ConfigMapKeySelector := {
  cmks_Name : string;
  cmks_Key : string;
  cmks_Optional : option bool }.

Record ObjectFieldSelector := {
  ofs_APIVersion : string;
  ofs_FieldPath : string }.

Record ResourceFieldSelector := {
  rfs_ContainerName : string;
  rfs_Resource : string;
  rfs_Divisor : string }.

Record EnvVarSource := {
  evs_FieldRef : option ObjectFieldSelector;
  evs_ResourceFieldRef : option ResourceFieldSelector;
  evs_ConfigMapKeyRef : option ConfigMapKeySelector;
  evs_SecretKeyRef : option SecretKeySelector }.

Record EnvVar := {
  ev_Name : string;
  ev_Value : string;
  ev_ValueFrom : option EnvVarSource }.

Record Toleration := {
  tol_Key : string;
  tol_Operator : string;
  tol_Value : string;
  tol_Effect : string;
  tol_TolerationSeconds : option Z }.

Record Volume := {
  vol_Name : string;
  vol_HostPath : option string }.

Record VolumeMount := {
  vm_Name : string;
  vm_MountPath : string }.

Record Probe := {
  pr_ExecCommand : option (slice string);   (* Handler.Exec *)
  pr_InitialDelaySeconds : Z;
  pr_PeriodSeconds : Z }.

Record SecurityContext := { sc_Privileged : option bool }.

Record Container := {
  ctr_Name : string;
  ctr_Image : string;
  ctr_Args : slice string;
  ctr_Env : slice EnvVar;
  ctr_ImagePullPolicy : string;
  ctr_VolumeMounts : slice VolumeMount;
  ctr_SecurityContext : option SecurityContext;
  ctr_ReadinessProbe : option Probe }.

Record PodSpec := {
  ps_Volumes : slice Volume;
  ps_HostNetwork : bool;
  ps_HostPID : bool;
  ps_HostIPC : bool;
  ps_Containers : slice Container;
  ps_ServiceAccountName : string;
  ps_NodeSelector : gomap string;
  ps_Tolerations : slice Toleration }.

Record LabelSelector := { ls_MatchLabels : gomap string }.

Record DaemonSetSpec := {
  dss_Selector : option LabelSelector;
  dss_TemplateLabels : gomap string;      (* Template.ObjectMeta.Labels *)
  dss_TemplateSpec : PodSpec }.           (* Template.Spec *)

Record OwnerReference := {
  or_APIVersion : string;
  or_Kind : string;
  or_Name : string;
  or_UID : string;
  or_Controller : option bool;
  or_BlockOwnerDeletion : option bool }.

Record DaemonSet := {
  ds_APIVersion : string;
  ds_Kind : string;
  ds_Name : string;
  ds_Namespace : string;
  ds_Labels : gomap string;
  ds_OwnerReferences : slice OwnerReference;
  ds_Spec : DaemonSetSpec }.

Record ContainerStatus := {
  cs_Name : string;
  cs_Ready : bool }.

Record Pod := {
  pod_Name : string;
  pod_NodeName : string;                     (* Spec.NodeName *)
  pod_HostIP : string;                       (* Status.HostIP *)
  pod_ContainerStatuses : slice ContainerStatus }.

(** ** The custom resource (pkg/apis/dynatrace/v1alpha1)

    The type declarations are not part of the handler's file; the fields
    are the ones the handler names (see the comments of
    [copyDaemonSetSpecToOneAgentSpec]). *)

Record OneAgentSpec := {
  ApiUrl : string;
  SkipCertCheck : bool;
  NodeSelector : gomap string;
  Tolerations : slice Toleration;
  Image : string;
  Tokens : string;
  WaitReadySeconds : option Z;               (* *uint16 *)
  Args : slice string;
  Env : slice EnvVar }.

Record OneAgentInstance := {
  PodName : string;
  Version : string }.

Record OneAgentStatus := {
  st_Version : string;
  st_Items : gomap OneAgentInstance;
  st_UpdatedTimestamp : Z }.

Record OneAgent := {
  oa_APIVersion : string;
  oa_Kind : string;
  oa_Name : string;
  oa_Namespace : string;
  oa_UID : string;
  Spec : OneAgentSpec;
  Status : OneAgentStatus }.

(** [reflect.DeepEqual] on these values is structural equality. *)
#[global] Instance SecretKeySelector_eq_dec : EqDecision SecretKeySelector.
Proof. solve_decision. Defined.
#[global] Instance ConfigMapKeySelector_eq_dec : EqDecision ConfigMapKeySelector.
Proof. solve_decision. Defined.
#[global] Instance ObjectFieldSelector_eq_dec : EqDecision ObjectFieldSelector.
Proof. solve_decision. Defined.
#[global] Instance ResourceFieldSelector_eq_dec : EqDecision ResourceFieldSelector.
Proof. solve_decision. Defined.
#[global] Instance EnvVarSource_eq_dec : EqDecision EnvVarSource.
Proof. solve_decision. Defined.
#[global] Instance EnvVar_eq_dec : EqDecision EnvVar.
Proof. solve_decision. Defined.
#[global] Instance Toleration_eq_dec : EqDecision Toleration.
Proof. solve_decision. Defined.
#[global] Instance OneAgentSpec_eq_dec : EqDecision OneAgentSpec.
Proof. solve_decision. Defined.
#[global] Instance OneAgentInstance_eq_dec : EqDecision OneAgentInstance.
Proof. solve_decision. Defined.
#[global] Instance ContainerStatus_eq_dec : EqDecision ContainerStatus.
Proof. solve_decision. Defined.
#[global] Instance Pod_eq_dec : EqDecision Pod.
Proof. solve_decision. Defined.

(** Field updates ([x.f = v] in the source). *)
Definition with_NodeSelector (v : gomap string) (s : OneAgentSpec) : OneAgentSpec :=
  {| ApiUrl := ApiUrl s; SkipCertCheck := SkipCertCheck s; NodeSelector := v;
     Tolerations := Tolerations s; Image := Image s; Tokens := Tokens s;
     WaitReadySeconds := WaitReadySeconds s; Args := Args s; Env := Env s |}.
Definition with_Tolerations (v : slice Toleration) (s : OneAgentSpec) : OneAgentSpec :=
  {| ApiUrl := ApiUrl s; SkipCertCheck := SkipCertCheck s; NodeSelector := NodeSelector s;
     Tolerations := v; Image := Image s; Tokens := Tokens s;
     WaitReadySeconds := WaitReadySeconds s; Args := Args s; Env := Env s |}.
Definition with_Image (v : string) (s : OneAgentSpec) : OneAgentSpec :=
  {| ApiUrl := ApiUrl s; SkipCertCheck := SkipCertCheck s; NodeSelector := NodeSelector s;
     Tolerations := Tolerations s; Image := v; Tokens := Tokens s;
     WaitReadySeconds := WaitReadySeconds s; Args := Args s; Env := Env s |}.
Definition with_Tokens (v : string) (s : OneAgentSpec) : OneAgentSpec :=
  {| ApiUrl := ApiUrl s; SkipCertCheck := SkipCertCheck s; NodeSelector := NodeSelector s;
     Tolerations := Tolerations s; Image := Image s; Tokens := v;
     WaitReadySeconds := WaitReadySeconds s; Args := Args s; Env := Env s |}.
Definition with_Args (v : slice string) (s : OneAgentSpec) : OneAgentSpec :=
  {| ApiUrl := ApiUrl s; SkipCertCheck := SkipCertCheck s; NodeSelector := NodeSelector s;
     Tolerations := Tolerations s; Image := Image s; Tokens := Tokens s;
     WaitReadySeconds := WaitReadySeconds s; Args := v; Env := Env s |}.
Definition with_Env (v : slice EnvVar) (s : OneAgentSpec) : OneAgentSpec :=
  {| ApiUrl := ApiUrl s; SkipCertCheck := SkipCertCheck s; NodeSelector := NodeSelector s;
     Tolerations := Tolerations s; Image := Image s; Tokens := Tokens s;
     WaitReadySeconds := WaitReadySeconds s; Args := Args s; Env := v |}.

Definition with_Spec (v : OneAgentSpec) (o : OneAgent) : OneAgent :=
  {| oa_APIVersion := oa_APIVersion o; oa_Kind := oa_Kind o; oa_Name := oa_Name o;
     oa_Namespace := oa_Namespace o; oa_UID := oa_UID o; Spec := v; Status := Status o |}.
Definition with_Status (v : OneAgentStatus) (o : OneAgent) : OneAgent :=
  {| oa_APIVersion := oa_APIVersion o; oa_Kind := oa_Kind o; oa_Name := oa_Name o;
     oa_Namespace := oa_Namespace o; oa_UID := oa_UID o; Spec := Spec o; Status := v |}.

Definition with_Version (v : string) (s : OneAgentStatus) : OneAgentStatus :=
  {| st_Version := v; st_Items := st_Items s; st_UpdatedTimestamp := st_UpdatedTimestamp s |}.
Definition with_Items (v : gomap OneAgentInstance) (s : OneAgentStatus) : OneAgentStatus :=
  {| st_Version := st_Version s; st_Items := v; st_UpdatedTimestamp := st_UpdatedTimestamp s |}.
Definition with_UpdatedTimestamp (v : Z) (s : OneAgentStatus) : OneAgentStatus :=
  {| st_Version := st_Version s; st_Items := st_Items s; st_UpdatedTimestamp := v |}.

(** ** Pure helpers of the handler *)

(** handler.go:25 *)
Definition splayTimeSeconds : Z := 10.

(** handler.go:411 *)
Definition getLabels (cr : OneAgent) : gmap string string :=
  <["oneagent" := oa_Name cr]> (<["dynatrace" := "oneagent"]> ∅).

(** handler.go:203: the conjunction of the containers' ready flags. *)
Definition getPodReadyState (p : Pod) : bool :=
  fold_left (fun ready c => ready && cs_Ready c) (items (pod_ContainerStatuses p)) true.

(** handler.go:451 *)
Definition getDaemonSet (cr : OneAgent) : DaemonSet :=
  {| ds_APIVersion := "apps/v1"; ds_Kind := "DaemonSet";
     ds_Name := oa_Name cr; ds_Namespace := oa_Namespace cr;
     ds_Labels := None; ds_OwnerReferences := None;
     ds_Spec := {| dss_Selector := None; dss_TemplateLabels := None;
                   dss_TemplateSpec :=
                     {| ps_Volumes := None; ps_HostNetwork := false; ps_HostPID := false;
                        ps_HostIPC := false; ps_Containers := None;
                        ps_ServiceAccountName := EmptyString; ps_NodeSelector := None;
                        ps_Tolerations := None |} |} |}.

(** handler.go:265.  The element-wise copies build a fresh, non-nil map or
    slice with the same content; a nil field of the DaemonSet leaves the
    field of [cr] as it is.  [Containers[0]] panics on an empty list
    ([None]); node selector and tolerations are copied before that. *)
Definition copyDaemonSetSpecToOneAgentSpec (ds : DaemonSetSpec) (cr : OneAgentSpec)
  : option OneAgentSpec :=
  let tpl := dss_TemplateSpec ds in
  let cr := match ps_NodeSelector tpl with
            | Some m => with_NodeSelector (Some m) cr
            | None => cr end in
  let cr := match ps_Tolerations tpl with
            | Some l => with_Tolerations (Some l) cr
            | None => cr end in
  match index (ps_Containers tpl) 0 with
  | None => None
  | Some c0 =>
    let cr := with_Image (ctr_Image c0) cr in
    let cr := match ctr_Args c0 with
              | Some l => with_Args (Some l) cr
              | None => cr end in
    let cr := match ctr_Env c0 with
              | Some l => with_Env (Some l) cr
              | None => cr end in
    Some cr
  end.

(** handler.go:253.  [DeepCopy] of a value is the value. *)
Definition hasSpecChanged (dsSpec : DaemonSetSpec) (cr : OneAgent) : option bool :=
  match copyDaemonSetSpecToOneAgentSpec dsSpec (Spec cr) with
  | None => None
  | Some actualSpec => Some (negb (bool_decide (Spec cr = actualSpec)))
  end.

(** handler.go:337.  The assignments to [Containers[0]] panic on an empty
    list. *)
Definition applyOneAgentSettings (ds : DaemonSet) (cr : OneAgent) : option DaemonSet :=
  let labels := getLabels cr in
  let tpl := dss_TemplateSpec (ds_Spec ds) in
  match index (ps_Containers tpl) 0 with
  | None => None
  | Some c0 =>
    let c0' := {| ctr_Name := ctr_Name c0; ctr_Image := Image (Spec cr);
                  ctr_Args := Args (Spec cr); ctr_Env := Env (Spec cr);
                  ctr_ImagePullPolicy := ctr_ImagePullPolicy c0;
                  ctr_VolumeMounts := ctr_VolumeMounts c0;
                  ctr_SecurityContext := ctr_SecurityContext c0;
                  ctr_ReadinessProbe := ctr_ReadinessProbe c0 |} in
    let tpl' := {| ps_Volumes := ps_Volumes tpl; ps_HostNetwork := ps_HostNetwork tpl;
                   ps_HostPID := ps_HostPID tpl; ps_HostIPC := ps_HostIPC tpl;
                   ps_Containers := Some (<[0%nat := c0']> (items (ps_Containers tpl)));
                   ps_ServiceAccountName := ps_ServiceAccountName tpl;
                   ps_NodeSelector := NodeSelector (Spec cr);
                   ps_Tolerations := Tolerations (Spec cr) |} in
    Some {| ds_APIVersion := ds_APIVersion ds; ds_Kind := ds_Kind ds;
            ds_Name := ds_Name ds; ds_Namespace := ds_Namespace ds;
            ds_Labels := Some labels;
            ds_OwnerReferences := ds_OwnerReferences ds;
            ds_Spec := {| dss_Selector := Some {| ls_MatchLabels := Some labels |};
                          dss_TemplateLabels := Some labels;
                          dss_TemplateSpec := tpl' |} |}
  end.

(** handler.go:356 *)
Definition applyOneAgentDefaults (ds : DaemonSet) (cr : OneAgent) : DaemonSet :=
  let spec :=
    {| dss_Selector := None; dss_TemplateLabels := None;
       dss_TemplateSpec :=
         {| ps_Volumes := Some [ {| vol_Name := "host-root"; vol_HostPath := Some "/" |} ];
            ps_HostNetwork := true; ps_HostPID := true; ps_HostIPC := true;
            ps_Containers := Some [
              {| ctr_Name := "dynatrace-oneagent"; ctr_Image := EmptyString;
                 ctr_Args := None; ctr_Env := None;
                 ctr_ImagePullPolicy := "Always";
                 ctr_VolumeMounts :=
                   Some [ {| vm_Name := "host-root"; vm_MountPath := "/mnt/root" |} ];
                 ctr_SecurityContext := Some {| sc_Privileged := Some true |};
                 ctr_ReadinessProbe :=
                   Some {| pr_ExecCommand := Some (Some ["pgrep"; "-f"; "oneagentwatchdog"]);
                           pr_InitialDelaySeconds := 30; pr_PeriodSeconds := 30 |} |} ];
            ps_ServiceAccountName := "dynatrace-oneagent";
            ps_NodeSelector := None; ps_Tolerations := None |} |} in
  let ownerRef :=
    {| or_APIVersion := oa_APIVersion cr; or_Kind := oa_Kind cr; or_Name := oa_Name cr;
       or_UID := oa_UID cr; or_Controller := Some true;
       or_BlockOwnerDeletion := Some true |} in
  {| ds_APIVersion := ds_APIVersion ds; ds_Kind := ds_Kind ds;
     ds_Name := ds_Name ds; ds_Namespace := ds_Namespace ds;
     ds_Labels := ds_Labels ds;
     ds_OwnerReferences := Some (items (ds_OwnerReferences ds) ++ [ownerRef])%list;
     ds_Spec := spec |}.

(** handler.go:51-54, the block of [Handle] that defaults [.spec.tokens]. *)
Definition defaultTokens (oneagent : OneAgent) (updateStatus : bool) : OneAgent * bool :=
  if bool_decide (Tokens (Spec oneagent) = EmptyString)
  then (with_Spec (with_Tokens (oa_Name oneagent) (Spec oneagent)) oneagent, true)
  else (oneagent, updateStatus).

(** The entry of handler.go:70-76. *)
Definition installerTokenVar (tokens : string) : EnvVar :=
  {| ev_Name := "ONEAGENT_INSTALLER_TOKEN"; ev_Value := EmptyString;
     ev_ValueFrom :=
       Some {| evs_FieldRef := None; evs_ResourceFieldRef := None;
               evs_ConfigMapKeyRef := None;
               evs_SecretKeyRef :=
                 Some {| sks_Name := tokens; sks_Key := "paasToken";
                         sks_Optional := None |} |} |}.

(** handler.go:69-78, the block of [Handle] that puts the installer token
    in front of the environment.  [Env[0]] panics on an empty list
    ([None]).  The inner [append] builds the new list in a fresh array, so
    the outer one, which may write into the array of [Env], yields the new
    entry followed by the old entries. *)
Definition injectInstallerToken (spec : OneAgentSpec) (updateStatus : bool)
  : option (OneAgentSpec * bool) :=
  match index (Env spec) 0 with
  | None => None
  | Some e0 =>
    if bool_decide (ev_Name e0 ≠ "ONEAGENT_INSTALLER_TOKEN")
    then Some (with_Env (Some (installerTokenVar (Tokens spec) :: items (Env spec))) spec,
               true)
    else Some (spec, updateStatus)
  end.

(** handler.go:101-105, the branch of [Handle] taken when the latest
    version was queried without error. *)
Definition applyDesiredVersion (desired : string) (oneagent : OneAgent) (updateStatus : bool)
  : OneAgent * bool :=
  if bool_decide (desired ≠ EmptyString) && bool_decide (st_Version (Status oneagent) ≠ desired)
  then (with_Status (with_Version desired (Status oneagent)) oneagent, true)
  else (oneagent, updateStatus).

(** handler.go:119-123 *)
Definition applyInstances (instances : gmap string OneAgentInstance) (oneagent : OneAgent)
    (updateStatus : bool) : OneAgent * bool :=
  if negb (bool_decide (Some instances = st_Items (Status oneagent)))
  then (with_Status (with_Items (Some instances) (Status oneagent)) oneagent, true)
  else (oneagent, updateStatus).

(** ** Collaborators, world and event log *)

Record ListOptions := {
  lo_FieldSelector : string;
  lo_LabelSelector : gmap string string }.

(** One event per call of a collaborator, with its arguments and its answer. *)
Inductive Event :=
| EvGetSecret (ns name : string) (data : gomap string) (err : option error)
| EvGetDaemonSet (ds : DaemonSet) (err : option error)
| EvCreateDaemonSet (ds : DaemonSet) (err : option error)
| EvUpdateDaemonSet (ds : DaemonSet) (err : option error)
| EvUpdateOneAgent (cr : OneAgent) (err : option error)
| EvDeletePod (pod : Pod) (err : option error)
| EvListPods (ns : string) (opts : ListOptions) (pods : list Pod) (err : option error)
| EvNewClient (url apiToken paasToken : string) (err : option error)
| EvGetVersionForLatest (ver : string) (err : option error)
| EvGetVersionForIp (ip ver : string) (err : option error)
| EvSleep (seconds : Z).

(** The operator-sdk functions, the constructor and the two queries of the
    [dtclient.Client] interface, and the clock.  Every call may change the
    world; a Go result pair [(value, err)] is a pair. *)
Class Collaborators (W Client : Type) := {
  query_Get_Secret : string -> string -> W -> W * (gomap string * option error);
  query_Get_DaemonSet : DaemonSet -> W -> W * (DaemonSet * option error);
  query_List : string -> ListOptions -> W -> W * (list Pod * option error);
  action_Create : DaemonSet -> W -> W * option error;
  action_Update_DaemonSet : DaemonSet -> W -> W * option error;
  action_Update_OneAgent : OneAgent -> W -> W * option error;
  action_Delete : Pod -> W -> W * option error;
  NewClient : string -> string -> string -> W -> W * (option Client * option error);
  GetVersionForLatest : Client -> W -> W * (string * option error);
  GetVersionForIp : Client -> string -> W -> W * (string * option error);
  time_Sleep : Z -> W -> W;
  metav1_Now : W -> Z }.

Record State (W : Type) := mkState { world : W; log : list Event }.
Arguments mkState {W} _ _.
Arguments world {W} _.
Arguments log {W} _.

(** A run ends with a value, with a panic, or (in the model only) because
    the poll loop was not given enough iterations. *)
Inductive Res (W A : Type) :=
| Done (a : A) (s : State W)
| Panicked (p : panic) (s : State W)
| OutOfFuel (s : State W).
Arguments Done {W A} _ _.
Arguments Panicked {W A} _ _.
Arguments OutOfFuel {W A} _.

(** The state in which a run ends. *)
Definition final {W A} (r : Res W A) : State W :=
  match r with Done _ s | Panicked _ s | OutOfFuel s => s end.

Definition M (W A : Type) : Type := State W -> Res W A.

Definition ret {W A} (a : A) : M W A := fun s => Done a s.

Definition bind {W A B} (m : M W A) (k : A -> M W B) : M W B :=
  fun s => match m s with
           | Done a s' => k a s'
           | Panicked p s' => Panicked p s'
           | OutOfFuel s' => OutOfFuel s'
           end.

Definition throw {W A} (p : panic) : M W A := fun s => Panicked p s.

(** Reading the clock neither changes the world nor is it logged. *)
Definition gets {W A} (f : W -> A) : M W A := fun s => Done (f (world s)) s.

(** A call of a collaborator: the world moves on and the call is logged. *)
Definition call {W A} (f : W -> W * A) (ev : A -> Event) : M W A :=
  fun s => let r := f (world s) in
           Done r.2 (mkState r.1 (log s ++ [ev r.2])%list).

Notation "'do' x <- m ;; k" := (bind m (fun x => k))
  (at level 10, x name, m at level 99, k at level 200, only parsing).
Notation "'do' ' p <- m ;; k" := (bind m (fun x => let 'p := x in k))
  (at level 10, p pattern, m at level 99, k at level 200, only parsing).

Section Handler.
Context {W Client : Type} `{!Collaborators W Client}.

(** handler.go:309 *)
Definition getSecretKey (cr : OneAgent) (key : string) : M W (string * option error) :=
  let name := Tokens (Spec cr) in
  let ns := oa_Namespace cr in
  do '(data, err) <- call (query_Get_Secret ns name)
                       (fun r => EvGetSecret ns name r.1 r.2) ;;
  match err with
  | Some e => ret (EmptyString, Some e)
  | None =>
    match mapget data key with
    | None => ret (EmptyString, Some (ErrMissingKey name key))
    | Some value => ret (value, None)
    end
  end.

(** handler.go:219 *)
Definition upsertDaemonSet (oa : OneAgent) : M W (option error) :=
  let ds0 := getDaemonSet oa in
  do '(ds, err) <- call (query_Get_DaemonSet ds0) (fun r => EvGetDaemonSet r.1 r.2) ;;
  match err with
  | None =>
    match hasSpecChanged (ds_Spec ds) oa with
    | None => throw IndexOutOfRange
    | Some true =>
      match applyOneAgentSettings ds oa with
      | None => throw IndexOutOfRange
      | Some ds' => call (action_Update_DaemonSet ds') (EvUpdateDaemonSet ds')
      end
    | Some false => ret None
    end
  | Some e =>
    if IsNotFound e then
      match applyOneAgentSettings (applyOneAgentDefaults ds oa) oa with
      | None => throw IndexOutOfRange
      | Some ds' => call (action_Create ds') (EvCreateDaemonSet ds')
      end
    else ret (Some e)
  end.

(** handler.go:424-445, the body of the loop of [getPodsToRestart] for one
    pod: the pods to delete so far and the instances so far go in, the
    extended ones come out. *)
Definition processPod (dtc : Client) (oneagent : OneAgent) (pod : Pod)
    (acc : list Pod * gmap string OneAgentInstance)
  : M W (list Pod * gmap string OneAgentInstance) :=
  let '(doomedPods, instances) := acc in
  let ip := pod_HostIP pod in
  do '(ver, err) <- call (GetVersionForIp dtc ip) (fun r => EvGetVersionForIp ip r.1 r.2) ;;
  match err with
  | Some _ =>
    let item :=
      match mapget (st_Items (Status oneagent)) (pod_NodeName pod) with
      | Some i => {| PodName := pod_Name pod; Version := Version i |}
      | None => {| PodName := pod_Name pod; Version := EmptyString |}
      end in
    ret (doomedPods, <[pod_NodeName pod := item]> instances)
  | None =>
    let item := {| PodName := pod_Name pod; Version := ver |} in
    let doomedPods :=
      if bool_decide (ver ≠ st_Version (Status oneagent))
      then (doomedPods ++ [pod])%list else doomedPods in
    ret (doomedPods, <[pod_NodeName pod := item]> instances)
  end.

Fixpoint forPods (dtc : Client) (oneagent : OneAgent) (pods : list Pod)
    (acc : list Pod * gmap string OneAgentInstance)
  : M W (list Pod * gmap string OneAgentInstance) :=
  match pods with
  | [] => ret acc
  | pod :: rest => do acc' <- processPod dtc oneagent pod acc ;; forPods dtc oneagent rest acc'
  end.

(** handler.go:420 *)
Definition getPodsToRestart (pods : list Pod) (dtc : Client) (oneagent : OneAgent)
  : M W (list Pod * gmap string OneAgentInstance) :=
  forPods dtc oneagent pods ([], ∅).

(** handler.go:178-191, the poll loop of [deletePods], entered with the
    counter [splay] and the [status] left by the previous iteration.  The
    bound is read through the pointer at every test; [continue] and the
    end of the body both run [splay += splayTimeSeconds] on a [uint16]. *)
Fixpoint waitReady (fuel : nat) (cr : OneAgent) (listOps : ListOptions)
    (splay : Z) (status : option error) : M W (option error) :=
  match fuel with
  | O => fun s => OutOfFuel s
  | S fuel' =>
    match WaitReadySeconds (Spec cr) with
    | None => throw NilDereference
    | Some budget =>
      if bool_decide (splay < budget) then
        do _ <- call (fun w => (time_Sleep splayTimeSeconds w, tt))
                  (fun _ => EvSleep splayTimeSeconds) ;;
        do '(pList, status) <- call (query_List (oa_Namespace cr) listOps)
                                 (fun r => EvListPods (oa_Namespace cr) listOps r.1 r.2) ;;
        let next := uint16 (splay + splayTimeSeconds) in
        match status with
        | Some _ => waitReady fuel' cr listOps next status
        | None =>
          let n := length pList in
          match pList with
          | [p] =>
            if getPodReadyState p then ret status
            else waitReady fuel' cr listOps next status
          | _ =>
            let status := if bool_decide (1 < n)%nat then Some (ErrTooManyPods n)
                          else status in
            waitReady fuel' cr listOps next status
          end
        end
      else ret status
    end
  end.

(** The field selector of handler.go:174, as [fmt.Sprintf] builds it. *)
Definition readyFieldSelector (pod : Pod) : string :=
  "spec.nodeName=" ++ pod_NodeName pod ++ ",status.phase=Running,metadata.name!="
    ++ pod_Name pod.

(** handler.go:162.  [fuel] bounds the iterations of each poll loop. *)
Fixpoint deletePods (fuel : nat) (cr : OneAgent) (pods : list Pod) : M W (option error) :=
  match pods with
  | [] => ret None
  | pod :: rest =>
    do err <- call (action_Delete pod) (EvDeletePod pod) ;;
    match err with
    | Some e => ret (Some e)
    | None =>
      let listOps := {| lo_FieldSelector := readyFieldSelector pod;
                        lo_LabelSelector := getLabels cr |} in
      do status <- waitReady fuel cr listOps 0 None ;;
      match status with
      | Some e => ret (Some e)
      | None => deletePods fuel cr rest
      end
    end
  end.

(** handler.go:35, the case of a [*v1alpha1.OneAgent] that is not deleted.
    The result is the object as the handler leaves it, and the error. *)
Definition HandleOneAgent (fuel : nat) (oneagent : OneAgent) : M W (OneAgent * option error) :=
  let '(oneagent, updateStatus) := defaultTokens oneagent false in
  do '(paasToken, err) <- getSecretKey oneagent "paasToken" ;;
  match err with Some e => ret (oneagent, Some e) | None =>
  do '(apiToken, err) <- getSecretKey oneagent "apiToken" ;;
  match err with Some e => ret (oneagent, Some e) | None =>
  match injectInstallerToken (Spec oneagent) updateStatus with
  | None => throw IndexOutOfRange
  | Some (spec, updateStatus) =>
  let oneagent := with_Spec spec oneagent in
  do err <- upsertDaemonSet oneagent ;;
  match err with Some e => ret (oneagent, Some e) | None =>
  let url := ApiUrl (Spec oneagent) in
  do '(dtc, err) <- call (NewClient url apiToken paasToken)
                      (fun r => EvNewClient url apiToken paasToken r.2) ;;
  match err with Some e => ret (oneagent, Some e) | None =>
  match dtc with None => throw NilDereference | Some dtc =>
  do '(desired, err) <- call (GetVersionForLatest dtc)
                          (fun r => EvGetVersionForLatest r.1 r.2) ;;
  match err with Some _ => ret (oneagent, None) | None =>
  let '(oneagent, updateStatus) := applyDesiredVersion desired oneagent updateStatus in
  let listOps := {| lo_FieldSelector := EmptyString; lo_LabelSelector := getLabels oneagent |} in
  do '(podList, err) <- call (query_List (oa_Namespace oneagent) listOps)
                          (fun r => EvListPods (oa_Namespace oneagent) listOps r.1 r.2) ;;
  match err with Some e => ret (oneagent, Some e) | None =>
  do '(podsToDelete, instances) <- getPodsToRestart podList dtc oneagent ;;
  let '(oneagent, updateStatus) := applyInstances instances oneagent updateStatus in
  do err <- deletePods fuel oneagent podsToDelete ;;
  match err with Some e => ret (oneagent, Some e) | None =>
  if updateStatus then
    do now <- gets metav1_Now ;;
    let oneagent := with_Status (with_UpdatedTimestamp now (Status oneagent)) oneagent in
    do err <- call (action_Update_OneAgent oneagent) (EvUpdateOneAgent oneagent) ;;
    ret (oneagent, err)
  else ret (oneagent, None)
  end end end end end end end end end.

(** The object of an event: a OneAgent or anything else. *)
Inductive Object := ObjOneAgent (o : OneAgent) | ObjOther.

Record HandlerEvent := { ev_Object : Object; ev_Deleted : bool }.

(** handler.go:35 *)
Definition Handle (fuel : nat) (event : HandlerEvent) : M W (Object * option error) :=
  match ev_Object event with
  | ObjOneAgent oneagent =>
    if ev_Deleted event then ret (ObjOneAgent oneagent, None)
    else do '(o, err) <- HandleOneAgent fuel oneagent ;; ret (ObjOneAgent o, err)
  | ObjOther => ret (ObjOther, None)
  end.

End Handler.

(** ** A scripted cluster for concrete runs

    The world is the number of collaborator calls answered so far; the
    answers are fixed by a script. *)

Record Script := {
  sc_secret : gomap string * option error;
  sc_daemonset : option DaemonSet * option error;
  sc_write : option error;                          (* create and update *)
  sc_delete : Pod -> option error;
  sc_live : list Pod * option error;                (* list without field selector *)
  sc_replacement : nat -> list Pod * option error;  (* list with one, by call number *)
  sc_client : option error;
  sc_latest : string * option error;
  sc_installed : string -> string * option error }.

Definition scripted (sc : Script) : Collaborators nat unit := {|
  query_Get_Secret := fun _ _ w => (S w, sc_secret sc);
  query_Get_DaemonSet := fun ds w => (S w, (default ds (sc_daemonset sc).1, (sc_daemonset sc).2));
  query_List := fun _ opts w =>
    (S w, if bool_decide (lo_FieldSelector opts = EmptyString) then sc_live sc
          else sc_replacement sc w);
  action_Create := fun _ w => (S w, sc_write sc);
  action_Update_DaemonSet := fun _ w => (S w, sc_write sc);
  action_Update_OneAgent := fun _ w => (S w, sc_write sc);
  action_Delete := fun p w => (S w, sc_delete sc p);
  NewClient := fun _ _ _ w => (S w, (Some tt, sc_client sc));
  GetVersionForLatest := fun _ w => (S w, sc_latest sc);
  GetVersionForIp := fun _ ip w => (S w, sc_installed sc ip);
  time_Sleep := fun _ w => S w;
  metav1_Now := fun w => Z.of_nat w |}.

Definition start : State nat := mkState 0%nat [].

(** * Notions used in the statements *)


(** What [copyDaemonSetSpecToOneAgentSpec] leaves in a nil-able field. *)
Definition merged {A} (live input : option A) : option A :=
  match live with Some l => Some l | None => input end.

Section Lookups.
Context {W Client : Type} `{!Collaborators W Client}.

(** The answers of [GetVersionForIp] to the pods of a pass, in the order of
    the pods, starting in world [w]; and the world after them. *)
Fixpoint lookups (dtc : Client) (pods : list Pod) (w : W) : list (string * option error) :=
  match pods with
  | [] => []
  | pod :: rest =>
    let r := GetVersionForIp dtc (pod_HostIP pod) w in
    r.2 :: lookups dtc rest r.1
  end.

Fixpoint afterLookups (dtc : Client) (pods : list Pod) (w : W) : W :=
  match pods with
  | [] => w
  | pod :: rest => afterLookups dtc rest (GetVersionForIp dtc (pod_HostIP pod) w).1
  end.

End Lookups.

(** The events of the lookups. *)
Definition lookupEvents (pods : list Pod) (answers : list (string * option error))
  : list Event :=
  zip_with (fun pod a => EvGetVersionForIp (pod_HostIP pod) a.1 a.2) pods answers.

(** The retirement gate of the code: the lookup succeeded and the version
    differs from the target. *)
Definition stale (target : string) (pa : Pod * (string * option error)) : bool :=
  bool_decide (pa.2.2 = None) && bool_decide (pa.2.1 ≠ target).

(** The retirement gate as the specification words it: the lookup
    succeeded, the version is not empty, and it differs from the target. *)
Definition stale_as_specified (target : string) (pa : Pod * (string * option error)) : bool :=
  bool_decide (pa.2.2 = None) && bool_decide (pa.2.1 ≠ EmptyString)
  && bool_decide (pa.2.1 ≠ target).

(** The version recorded for a pod whose lookup failed. *)
Definition lastKnown (oneagent : OneAgent) (pod : Pod) : string :=
  match mapget (st_Items (Status oneagent)) (pod_NodeName pod) with
  | Some i => Version i
  | None => EmptyString
  end.

(** The record of a pod, given the answer to its lookup. *)
Definition recordOf (oneagent : OneAgent) (pa : Pod * (string * option error))
  : OneAgentInstance :=
  {| PodName := pod_Name pa.1;
     Version := match pa.2.2 with
                | Some _ => lastKnown oneagent pa.1
                | None => pa.2.1
                end |}.

(** The number of poll ticks in a log (every tick starts with a sleep), and
    the pods whose deletion was issued, in order. *)
Definition pollTicks (evs : list Event) : nat :=
  length (omap (fun e => match e with EvSleep z => Some z | _ => None end) evs).

Definition deletions (evs : list Event) : list Pod :=
  omap (fun e => match e with EvDeletePod p _ => Some p | _ => None end) evs.

(** The poll answers of a log that confirm a replacement: one pod, ready. *)
Definition confirmations (evs : list Event) : list Pod :=
  omap (fun e => match e with
                 | EvListPods _ _ [p] None => if getPodReadyState p then Some p else None
                 | _ => None
                 end) evs.

(** The number of iterations the poll loop has left when it is entered
    with the counter [splay] and budget [B], as long as the counter does
    not wrap. *)
Definition ticksLeft (B splay : Z) : nat := Z.to_nat ((B - splay + 9) / 10).

(** ** Concrete objects *)

Definition ex_pod1 : Pod :=
  {| pod_Name := "oneagent-x1"; pod_NodeName := "n1"; pod_HostIP := "10.0.0.1";
     pod_ContainerStatuses := Some [ {| cs_Name := "dynatrace-oneagent"; cs_Ready := true |} ] |}.

Definition ex_pod2 : Pod :=
  {| pod_Name := "oneagent-x2"; pod_NodeName := "n2"; pod_HostIP := "10.0.0.2";
     pod_ContainerStatuses := Some [ {| cs_Name := "dynatrace-oneagent"; cs_Ready := true |} ] |}.

Definition ex_spec (wait : Z) (env : slice EnvVar) : OneAgentSpec :=
  {| ApiUrl := "https://tenant.example/api"; SkipCertCheck := false;
     NodeSelector := Some {[ "zone" := "a" ]}; Tolerations := None;
     Image := "dynatrace/oneagent"; Tokens := "oneagent";
     WaitReadySeconds := Some wait; Args := None; Env := env |}.

Definition ex_env : slice EnvVar :=
  Some [ {| ev_Name := "ONEAGENT_INSTALLER_SCRIPT_URL"; ev_Value := "https://tenant.example/sh";
            ev_ValueFrom := None |} ].

Definition ex_status : OneAgentStatus :=
  {| st_Version := "1.2.0";
     st_Items := Some {[ "n1" := {| PodName := "oneagent-x0"; Version := "1.1.0" |} ]};
     st_UpdatedTimestamp := 0 |}.

Definition ex_oneagent (wait : Z) (env : slice EnvVar) : OneAgent :=
  {| oa_APIVersion := "dynatrace.com/v1alpha1"; oa_Kind := "OneAgent"; oa_Name := "oneagent";
     oa_Namespace := "dynatrace"; oa_UID := "u-1";
     Spec := ex_spec wait env; Status := ex_status |}.

(** A cluster in which every call succeeds, the DaemonSet does not exist
    yet, both pods are live, the pod on [n1] runs 1.1.0, and no replacement
    ever shows up. *)
Definition ex_script : Script :=
  {| sc_secret := (Some (<["paasToken" := "p"]> (<["apiToken" := "a"]> ∅)), None);
     sc_daemonset := (None, Some (ApiError true "not found"));
     sc_write := None;
     sc_delete := fun _ => None;
     sc_live := ([ex_pod1; ex_pod2], None);
     sc_replacement := fun _ => ([], None);
     sc_client := None;
     sc_latest := ("1.2.0", None);
     sc_installed := fun ip => if bool_decide (ip = "10.0.0.1") then ("1.1.0", None)
                               else ("1.2.0", None) |}.

(** The same cluster with other answers of the version authority. *)
Definition ex_script_versions (latest : string * option error)
    (installed : string -> string * option error) : Script :=
  {| sc_secret := sc_secret ex_script; sc_daemonset := sc_daemonset ex_script;
     sc_write := sc_write ex_script; sc_delete := sc_delete ex_script;
     sc_live := sc_live ex_script; sc_replacement := sc_replacement ex_script;
     sc_client := sc_client ex_script;
     sc_latest := latest; sc_installed := installed |}.

(** A live DaemonSet spec as the handler creates it for [ex_oneagent], with
    the given node selector. *)
Definition ex_live (nodeSelector : gomap string) : DaemonSetSpec :=
  {| dss_Selector := Some {| ls_MatchLabels := Some (getLabels (ex_oneagent 15 ex_env)) |};
     dss_TemplateLabels := Some (getLabels (ex_oneagent 15 ex_env));
     dss_TemplateSpec :=
       {| ps_Volumes := Some [ {| vol_Name := "host-root"; vol_HostPath := Some "/" |} ];
          ps_HostNetwork := true; ps_HostPID := true; ps_HostIPC := true;
          ps_Containers := Some [
            {| ctr_Name := "dynatrace-oneagent"; ctr_Image := "dynatrace/oneagent";
               ctr_Args := None; ctr_Env := ex_env;
               ctr_ImagePullPolicy := "Always";
               ctr_VolumeMounts :=
                 Some [ {| vm_Name := "host-root"; vm_MountPath := "/mnt/root" |} ];
               ctr_SecurityContext := Some {| sc_Privileged := Some true |};
               ctr_ReadinessProbe := None |} ];
          ps_ServiceAccountName := "dynatrace-oneagent";
          ps_NodeSelector := nodeSelector; ps_Tolerations := None |} |}.

(** A version authority that knows no host. *)
Definition ex_unknown_host (ip : string) : string * option error :=
  (EmptyString, Some (ApiError false "no agent found for host")).

(** A version authority that answers with an empty version. *)
Definition ex_empty_version (ip : string) : string * option error :=
  (EmptyString, None).

(** A second pod on the node of [ex_pod1], and a version authority that
    does not know the host of [ex_pod1] and answers 1.2.0 for every other
    host. *)
Definition ex_pod1_successor : Pod :=
  {| pod_Name := "oneagent-x9"; pod_NodeName := "n1"; pod_HostIP := "10.0.0.9";
     pod_ContainerStatuses := Some [ {| cs_Name := "dynatrace-oneagent"; cs_Ready := true |} ] |}.

Definition ex_first_host_unknown (ip : string) : string * option error :=
  if bool_decide (ip = "10.0.0.1")
  then (EmptyString, Some (ApiError false "no agent found for host"))
  else ("1.2.0", None).

(** ** Phases of a pass, by the events they emit *)

(** Before the version queries: tokens, DaemonSet, client. *)
Definition preludeEvent (e : Event) : Prop :=
  match e with
  | EvGetSecret _ _ _ _ | EvGetDaemonSet _ _ | EvCreateDaemonSet _ _
  | EvUpdateDaemonSet _ _ | EvNewClient _ _ _ _ => True
  | _ => False
  end.

Definition lookupEvent (e : Event) : Prop :=
  match e with EvGetVersionForIp _ _ _ => True | _ => False end.

(** Deletions, sleeps and the list queries of the readiness poll, which
    carry a field selector. *)
Definition retirementEvent (e : Event) : Prop :=
  match e with
  | EvDeletePod _ _ | EvSleep _ => True
  | EvListPods _ opts _ _ => lo_FieldSelector opts ≠ EmptyString
  | _ => False
  end.

(** The events a run added to the log it started with. *)
Definition emitted {W A} (s : State W) (out : Res W A) : list Event :=
  drop (length (log s)) (log (final out)).

(** The object a run returned, if it returned. *)
Definition returned {W A B} (out : Res W (A * B)) : option A :=
  match out with Done r _ => Some r.1 | _ => None end.

(** The target version after a successful query that answered [desired]. *)
Definition targetAfter (desired : string) (oneagent : OneAgent) : string :=
  if bool_decide (desired ≠ EmptyString)
     && bool_decide (st_Version (Status oneagent) ≠ desired)
  then desired else st_Version (Status oneagent).

(** The status of [o] holds target version [V] and a map whose keys are
    the node names of [pods]. *)
Definition settled (V : string) (pods : list Pod) (o : OneAgent) : Prop :=
  st_Version (Status o) = V /\
  exists m, st_Items (Status o) = Some m /\ dom m = list_to_set (pod_NodeName <$> pods).

(** The shape of the log of a pass over [oa] started in [s].  The pass
    stops in the prelude, or right after a failed query for the latest
    version, or it goes on to list the pods and, when that succeeds, to
    look up versions, retire pods and possibly write the status. *)
Definition passShape {W} (oa : OneAgent) (s : State W)
    (out : Res W (OneAgent * option error)) : Prop :=
  exists pre, Forall preludeEvent pre /\
    ( log (final out) = (log s ++ pre)%list
    \/ (exists ver e o s',
          out = Done (o, None) s' /\ Status o = Status oa /\
          log s' = (log s ++ pre ++ [EvGetVersionForLatest ver (Some e)])%list)
    \/ (exists desired ns ops pods lerr rest,
          log (final out) =
            (log s ++ pre ++ EvGetVersionForLatest desired None
                   :: EvListPods ns ops pods lerr :: rest)%list /\
          lo_FieldSelector ops = EmptyString /\
          (forall o, returned out = Some o ->
                     st_Version (Status o) = targetAfter desired oa) /\
          match lerr with
          | Some _ => rest = []
          | None =>
            exists lk rt upd,
              rest = (lk ++ rt ++ upd)%list /\
              Forall lookupEvent lk /\ Forall retirementEvent rt /\
              (upd = [] \/
               exists o' e', upd = [EvUpdateOneAgent o' e'] /\
                             settled (targetAfter desired oa) pods o') /\
              (forall o, returned out = Some o ->
                         settled (targetAfter desired oa) pods o)
          end) ).

(** A version authority that cannot be reached for the latest version. *)
Definition ex_script_unreachable : Script :=
  ex_script_versions (EmptyString, Some (ApiError false "unreachable")) ex_unknown_host.

(** A version authority that answers the empty string for the latest
    version. *)
Definition ex_script_empty_latest : Script :=
  ex_script_versions (EmptyString, None) (sc_installed ex_script).

(** The events of the readiness poll: sleeps and list queries. *)
Definition pollEvent (e : Event) : Prop :=
  match e with
  | EvSleep _ | EvListPods _ _ _ _ => True
  | _ => False
  end.

(** The list options of the readiness poll for a deleted pod
    (handler.go:174-177). *)
Definition readyListOptions (cr : OneAgent) (pod : Pod) : ListOptions :=
  {| lo_FieldSelector := readyFieldSelector pod; lo_LabelSelector := getLabels cr |}.

(** A replacement pod, ready. *)
Definition ex_pod3 : Pod :=
  {| pod_Name := "oneagent-y1"; pod_NodeName := "n1"; pod_HostIP := "10.0.0.1";
     pod_ContainerStatuses := Some [ {| cs_Name := "dynatrace-oneagent"; cs_Ready := true |} ] |}.

(** The cluster of [ex_script] with other answers to deletions and to the
    readiness poll. *)
Definition ex_script_restart (delete : Pod -> option error)
    (replacement : nat -> list Pod * option error) : Script :=
  {| sc_secret := sc_secret ex_script; sc_daemonset := sc_daemonset ex_script;
     sc_write := sc_write ex_script; sc_delete := delete;
     sc_live := sc_live ex_script; sc_replacement := replacement;
     sc_client := sc_client ex_script;
     sc_latest := sc_latest ex_script; sc_installed := sc_installed ex_script |}.

(** An object whose wait budget is not set. *)
Definition ex_oneagent_no_budget : OneAgent :=
  {| oa_APIVersion := "dynatrace.com/v1alpha1"; oa_Kind := "OneAgent"; oa_Name := "oneagent";
     oa_Namespace := "dynatrace"; oa_UID := "u-1";
     Spec := {| ApiUrl := "https://tenant.example/api"; SkipCertCheck := false;
                NodeSelector := None; Tolerations := None;
                Image := "dynatrace/oneagent"; Tokens := "oneagent";
                WaitReadySeconds := None; Args := None; Env := ex_env |};
     Status := ex_status |}.

(** The calls that only read. *)
Definition readOnlyEvent (e : Event) : Prop :=
  match e with
  | EvGetSecret _ _ _ _ | EvGetDaemonSet _ _ | EvListPods _ _ _ _
  | EvNewClient _ _ _ _ | EvGetVersionForLatest _ _ | EvGetVersionForIp _ _ _ => True
  | _ => False
  end.

(** The instance map of pods that all run [version]. *)
Definition itemsAt (version : string) (pods : list Pod) : gmap string OneAgentInstance :=
  foldl (fun m pod => <[pod_NodeName pod := {| PodName := pod_Name pod; Version := version |}]> m)
        ∅ pods.

(** A custom resource in its steady state: the token variable is injected
    and the status records both pods at the target version. *)
Definition ex_oneagent_steady : OneAgent :=
  {| oa_APIVersion := "dynatrace.com/v1alpha1"; oa_Kind := "OneAgent"; oa_Name := "oneagent";
     oa_Namespace := "dynatrace"; oa_UID := "u-1";
     Spec := ex_spec 15 (Some (installerTokenVar "oneagent" :: items ex_env));
     Status := {| st_Version := "1.2.0";
                  st_Items := Some (itemsAt "1.2.0" [ex_pod1; ex_pod2]);
                  st_UpdatedTimestamp := 7 |} |}.

(** The DaemonSet of [ex_oneagent_steady] as the handler creates it. *)
Definition ex_daemonset_steady : DaemonSet :=
  default (getDaemonSet ex_oneagent_steady)
          (applyOneAgentSettings
             (applyOneAgentDefaults (getDaemonSet ex_oneagent_steady) ex_oneagent_steady)
             ex_oneagent_steady).

(** A cluster in the steady state of [ex_oneagent_steady]. *)
Definition ex_script_steady : Script :=
  {| sc_secret := sc_secret ex_script;
     sc_daemonset := (Some ex_daemonset_steady, None);
     sc_write := None;
     sc_delete := fun _ => None;
     sc_live := ([ex_pod1; ex_pod2], None);
     sc_replacement := fun _ => ([], None);
     sc_client := None;
     sc_latest := ("1.2.0", None);
     sc_installed := fun _ => ("1.2.0", None) |}.

(** A cluster without the token secret. *)
Definition ex_script_no_secret : Script :=
  {| sc_secret := (None, Some (ApiError true "secret not found"));
     sc_daemonset := sc_daemonset ex_script; sc_write := sc_write ex_script;
     sc_delete := sc_delete ex_script; sc_live := sc_live ex_script;
     sc_replacement := sc_replacement ex_script; sc_client := sc_client ex_script;
     sc_latest := sc_latest ex_script; sc_installed := sc_installed ex_script |}.

(** The DaemonSet of [ex_oneagent] before the settings are applied. *)
Definition ex_daemonset_bare : DaemonSet :=
  applyOneAgentDefaults (getDaemonSet (ex_oneagent 15 ex_env)) (ex_oneagent 15 ex_env).
(** * Properties *)

(** ** Credential injection (handler.go:69-78) *)

Lemma index_0_None {A} (s : slice A) : index s 0 = None <-> items s = [].
Proof.
  unfold index. destruct (items s) as [|x l]; simpl; split; congruence.
Qed.

Lemma injectInstallerToken_cases spec u :
  injectInstallerToken spec u = None /\ items (Env spec) = [] \/
  (exists e0, index (Env spec) 0 = Some e0 /\ ev_Name e0 = "ONEAGENT_INSTALLER_TOKEN" /\
              injectInstallerToken spec u = Some (spec, u)) \/
  (exists e0, index (Env spec) 0 = Some e0 /\ ev_Name e0 ≠ "ONEAGENT_INSTALLER_TOKEN" /\
              injectInstallerToken spec u =
                Some (with_Env (Some (installerTokenVar (Tokens spec) :: items (Env spec))) spec,
                      true)).
Proof.
  unfold injectInstallerToken.
  destruct (index (Env spec) 0) as [e0|] eqn:H0.
  - right. case_bool_decide as Hn.
    + right. eauto.
    + left. exists e0. split; [done|]. split; [|done].
      destruct (decide (ev_Name e0 = "ONEAGENT_INSTALLER_TOKEN")); [done|contradiction].
  - left. split; [done|]. by apply index_0_None.
Qed.

(** C7: on a non-empty environment the injection succeeds, a second
    application changes nothing, the environment after both is the old one
    or the old one behind a single injected entry, and a list that starts
    with the credential variable is left as it is. *)
Theorem injectInstallerToken_idempotent (spec : OneAgentSpec) (u : bool) :
  items (Env spec) ≠ [] ->
  exists spec1 u1,
    injectInstallerToken spec u = Some (spec1, u1) /\
    injectInstallerToken spec1 u1 = Some (spec1, u1) /\
    (items (Env spec1) = items (Env spec) \/
     items (Env spec1) = installerTokenVar (Tokens spec) :: items (Env spec)) /\
    (forall e0, index (Env spec) 0 = Some e0 ->
                ev_Name e0 = "ONEAGENT_INSTALLER_TOKEN" -> spec1 = spec /\ u1 = u).
Proof.
  intros Hne.
  destruct (injectInstallerToken_cases spec u) as [[_ He]|[(e0 & H0 & Hn & Hr)|(e0 & H0 & Hn & Hr)]].
  - contradiction.
  - exists spec, u. repeat split; auto.
  - eexists _, true. split; [exact Hr|]. split; [reflexivity|]. split.
    + right. reflexivity.
    + intros e1 H1 Hn1. congruence.
Qed.

(** The injection has no result exactly when the environment list is
    empty: the read of [Env[0]] is out of range. *)
Lemma injectInstallerToken_empty_env (spec : OneAgentSpec) (u : bool) :
  injectInstallerToken spec u = None <-> items (Env spec) = [].
Proof.
  split.
  - intros H.
    destruct (injectInstallerToken_cases spec u) as [[_ He]|[(e0 & _ & _ & Hr)|(e0 & _ & _ & Hr)]];
      [done|congruence|congruence].
  - intros H. unfold injectInstallerToken.
    apply index_0_None in H. by rewrite H.
Qed.


(** ** Drift detection (handler.go:253, 265) *)


Lemma copyDaemonSetSpecToOneAgentSpec_merged dsSpec spec c0 :
  index (ps_Containers (dss_TemplateSpec dsSpec)) 0 = Some c0 ->
  copyDaemonSetSpecToOneAgentSpec dsSpec spec =
    Some {| ApiUrl := ApiUrl spec; SkipCertCheck := SkipCertCheck spec;
            NodeSelector := merged (ps_NodeSelector (dss_TemplateSpec dsSpec)) (NodeSelector spec);
            Tolerations := merged (ps_Tolerations (dss_TemplateSpec dsSpec)) (Tolerations spec);
            Image := ctr_Image c0; Tokens := Tokens spec;
            WaitReadySeconds := WaitReadySeconds spec;
            Args := merged (ctr_Args c0) (Args spec);
            Env := merged (ctr_Env c0) (Env spec) |}.
Proof.
  intros Hc. unfold copyDaemonSetSpecToOneAgentSpec. rewrite Hc.
  destruct (ps_NodeSelector _), (ps_Tolerations _), (ctr_Args c0), (ctr_Env c0);
    reflexivity.
Qed.



(** ** Inventory (handler.go:420) *)

Section Inventory.
Context {W Client : Type} `{!Collaborators W Client}.

Lemma processPod_run dtc oneagent pod doomed instances s :
  let a := (GetVersionForIp dtc (pod_HostIP pod) (world s)).2 in
  processPod dtc oneagent pod (doomed, instances) s =
    Done ((doomed ++ if stale (st_Version (Status oneagent)) (pod, a) then [pod] else [])%list,
          <[pod_NodeName pod := recordOf oneagent (pod, a)]> instances)
         (mkState (GetVersionForIp dtc (pod_HostIP pod) (world s)).1
                  (log s ++ [EvGetVersionForIp (pod_HostIP pod) a.1 a.2])%list).
Proof.
  unfold processPod, bind, call, ret, stale, recordOf, lastKnown. simpl.
  destruct (GetVersionForIp dtc (pod_HostIP pod) (world s)) as [w' [ver [e|]]]; simpl.
  - rewrite app_nil_r. by destruct (mapget _ _).
  - case_bool_decide; simpl; [reflexivity|by rewrite app_nil_r].
Qed.

Lemma forPods_run dtc oneagent pods : forall doomed instances s,
  let ans := lookups dtc pods (world s) in
  forPods dtc oneagent pods (doomed, instances) s =
    Done ((doomed ++ (filter (fun pa => stale (st_Version (Status oneagent)) pa)
                             (zip pods ans)).*1)%list,
          foldl (fun m pa => <[pod_NodeName pa.1 := recordOf oneagent pa]> m)
                instances (zip pods ans))
         (mkState (afterLookups dtc pods (world s))
                  (log s ++ lookupEvents pods ans)%list).
Proof.
  induction pods as [|pod rest IH]; intros doomed instances s.
  - simpl. unfold ret. rewrite !app_nil_r. by destruct s.
  - cbn [forPods]. unfold bind. rewrite processPod_run. cbv zeta. rewrite IH. simpl.
    f_equal.
    + f_equal. rewrite filter_cons. simpl.
      destruct (stale _ _) eqn:Hs; simpl.
      * by rewrite <- app_assoc.
      * by rewrite app_nil_r.
    + f_equal. unfold lookupEvents. simpl. by rewrite <- app_assoc.
Qed.


Lemma lookups_length dtc pods : forall w, length (lookups dtc pods w) = length pods.
Proof. induction pods as [|pod rest IH]; intros w; simpl; [done|by rewrite IH]. Qed.

Lemma lookups_app dtc pods1 pods2 w :
  lookups dtc (pods1 ++ pods2) w =
    (lookups dtc pods1 w ++ lookups dtc pods2 (afterLookups dtc pods1 w))%list.
Proof.
  revert w. induction pods1 as [|pod rest IH]; intros w; simpl; [done|by rewrite IH].
Qed.

Lemma records_lookup_other oneagent pods : forall ans (m : gmap string OneAgentInstance) k,
  k ∉ pod_NodeName <$> pods ->
  foldl (fun m pa => <[pod_NodeName pa.1 := recordOf oneagent pa]> m) m (zip pods ans) !! k
  = m !! k.
Proof.
  induction pods as [|pod rest IH]; intros ans m k Hk; [done|].
  destruct ans as [|a ans]; [done|]. simpl.
  rewrite fmap_cons in Hk. apply not_elem_of_cons in Hk as [Hne Hk].
  rewrite IH by done. by rewrite lookup_insert_ne.
Qed.

Lemma records_dom dtc oneagent pods : forall w (m : gmap string OneAgentInstance),
  dom (foldl (fun m pa => <[pod_NodeName pa.1 := recordOf oneagent pa]> m) m
             (zip pods (lookups dtc pods w)))
  = dom m ∪ list_to_set (pod_NodeName <$> pods).
Proof.
  induction pods as [|pod rest IH]; intros w m; simpl.
  - set_solver.
  - rewrite IH, dom_insert_L. set_solver.
Qed.

(** C1, as amended: the pass returns, and the pods to delete are, in the
    order of discovery, exactly the pods whose lookup succeeded with a
    version different from the target version of the status. *)
Theorem getPodsToRestart_doomed (pods : list Pod) (dtc : Client) (oneagent : OneAgent)
    (s : State W) :
  exists instances s',
    getPodsToRestart pods dtc oneagent s =
      Done ((filter (fun pa => stale (st_Version (Status oneagent)) pa)
                    (zip pods (lookups dtc pods (world s)))).*1,
            instances) s'.
Proof.
  unfold getPodsToRestart. rewrite forPods_run. simpl. eauto.
Qed.


(** The record built on a failed lookup is the one the returned map holds
    for the node when no later pod of the pass is on the same node (a later
    pod on the node replaces it, handler.go:444). *)
Lemma getPodsToRestart_fallback_kept (pods1 pods2 : list Pod) (pod : Pod) (dtc : Client)
    (oneagent : OneAgent) (s : State W) (ver : string) (e : error) :
  lookups dtc (pods1 ++ pod :: pods2) (world s) !! length pods1 = Some (ver, Some e) ->
  pod_NodeName pod ∉ pod_NodeName <$> pods2 ->
  exists doomed instances s',
    getPodsToRestart (pods1 ++ pod :: pods2) dtc oneagent s = Done (doomed, instances) s' /\
    instances !! pod_NodeName pod =
      Some {| PodName := pod_Name pod;
              Version := match mapget (st_Items (Status oneagent)) (pod_NodeName pod) with
                         | Some i => Version i
                         | None => EmptyString
                         end |}.
Proof.
  intros Hans Hlast.
  unfold getPodsToRestart. rewrite forPods_run. cbv zeta.
  eexists _, _, _. split; [reflexivity|].
  rewrite lookups_app in Hans |- *.
  rewrite lookup_app_r in Hans by (by rewrite lookups_length).
  rewrite lookups_length, Nat.sub_diag in Hans. simpl in Hans. injection Hans as Hans.
  rewrite zip_with_app by (by rewrite lookups_length).
  rewrite foldl_app. cbn [lookups zip_with foldl]. rewrite Hans.
  rewrite records_lookup_other by done.
  rewrite lookup_insert_eq. reflexivity.
Qed.

(** The keys of the map that [getPodsToRestart] builds are the node names
    of its pods, and the status holds that map after the comparison with
    the persisted one. *)
Lemma getPodsToRestart_keys (pods : list Pod) (dtc : Client) (oneagent : OneAgent)
    (s : State W) (updateStatus : bool) :
  exists doomed instances s',
    getPodsToRestart pods dtc oneagent s = Done (doomed, instances) s' /\
    dom instances = list_to_set (pod_NodeName <$> pods) /\
    st_Items (Status (applyInstances instances oneagent updateStatus).1) = Some instances.
Proof.
  unfold getPodsToRestart. rewrite forPods_run. cbv zeta.
  eexists _, _, _. split; [reflexivity|]. split.
  - rewrite records_dom. set_solver.
  - unfold applyInstances. case_bool_decide as Heq; simpl; [by rewrite <- Heq|done].
Qed.

End Inventory.

(** ** Rolling restart (handler.go:162) *)

Lemma pollTicks_app evs1 evs2 : pollTicks (evs1 ++ evs2) = (pollTicks evs1 + pollTicks evs2)%nat.
Proof. unfold pollTicks. by rewrite omap_app, length_app. Qed.

Lemma deletions_app evs1 evs2 : deletions (evs1 ++ evs2) = (deletions evs1 ++ deletions evs2)%list.
Proof. unfold deletions. by rewrite omap_app. Qed.

Lemma ticksLeft_done B splay : B <= splay -> ticksLeft B splay = 0%nat.
Proof.
  intros H. unfold ticksLeft.
  assert ((B - splay + 9) / 10 < 1) by (apply Z.div_lt_upper_bound; lia). lia.
Qed.

Lemma ticksLeft_step B splay :
  splay < B -> ticksLeft B splay = S (ticksLeft B (splay + 10)).
Proof.
  intros H. unfold ticksLeft.
  replace (B - splay + 9) with ((B - (splay + 10) + 9) + 1 * 10) by lia.
  rewrite Z.div_add by lia.
  assert (0 <= (B - (splay + 10) + 9) / 10) by (apply Z.div_pos; lia). lia.
Qed.

Section Restart.
Context {W Client : Type} `{!Collaborators W Client}.

(** Without wrap-around of the counter the poll loop ends within
    [ticksLeft] iterations, and emits nothing but sleeps and list queries. *)
Lemma waitReady_bounded cr listOps B :
  WaitReadySeconds (Spec cr) = Some B -> B <= 65530 ->
  forall n fuel splay status s,
    ticksLeft B splay = n -> (n < fuel)%nat -> 0 <= splay -> splay mod 10 = 0 ->
    exists status' s' evs,
      waitReady fuel cr listOps splay status s = Done status' s' /\
      log s' = (log s ++ evs)%list /\
      (pollTicks evs <= n)%nat /\ deletions evs = [].
Proof.
  intros HB Hmax. induction n as [|n IH]; intros fuel splay status s Hn Hfuel H0 Hm.
  - destruct fuel as [|fuel]; [lia|]. cbn [waitReady]. rewrite HB.
    rewrite bool_decide_eq_false_2.
    + exists status, s, []. rewrite app_nil_r. by repeat split.
    + intros Hlt. rewrite ticksLeft_step in Hn by done. lia.
  - destruct fuel as [|fuel]; [lia|]. cbn [waitReady]. rewrite HB.
    assert (Hlt : splay < B).
    { destruct (decide (splay < B)); [done|]. rewrite ticksLeft_done in Hn by lia. lia. }
    rewrite bool_decide_eq_true_2 by done.
    assert (Hnext : uint16 (splay + splayTimeSeconds) = splay + 10).
    { unfold uint16, splayTimeSeconds. apply Z.mod_small.
      assert (splay <= 65520); [|lia].
      apply Z.mod_divide in Hm; [|lia]. destruct Hm as [k ->]. lia. }
    rewrite Hnext.
    assert (Hm' : (splay + 10) mod 10 = 0).
    { rewrite <- Z.add_mod_idemp_l, Hm by lia. reflexivity. }
    rewrite ticksLeft_step in Hn by done. injection Hn as Hn.
    unfold bind at 1. unfold call at 1. cbn [fst snd].
    unfold bind at 1. unfold call at 1. cbn [fst snd world log].
    set (s1 := mkState _ _).
    assert (Hcont : forall st,
      exists status' s' evs,
        waitReady fuel cr listOps (splay + 10) st s1 = Done status' s' /\
        log s' = (log s ++ evs)%list /\ (pollTicks evs <= S n)%nat /\ deletions evs = []).
    { intros st. destruct (IH fuel (splay + 10) st s1) as (st' & s' & evs & Hr & Hl & Ht & Hd);
        [done|lia|lia|done|].
      exists st', s', ([EvSleep splayTimeSeconds;
                         EvListPods (oa_Namespace cr) listOps
                           (query_List (oa_Namespace cr) listOps
                              (time_Sleep splayTimeSeconds (world s))).2.1
                           (query_List (oa_Namespace cr) listOps
                              (time_Sleep splayTimeSeconds (world s))).2.2] ++ evs)%list.
      split; [done|]. split; [|split].
      - rewrite Hl. subst s1. cbn [log]. by rewrite <- !app_assoc.
      - rewrite pollTicks_app. cbn. lia.
      - rewrite deletions_app, Hd. reflexivity. }
    destruct (query_List (oa_Namespace cr) listOps (time_Sleep splayTimeSeconds (world s)))
      as [w' [pList [e|]]] eqn:HL; cbn [fst snd] in *.
    + apply Hcont.
    + destruct pList as [|p [|p' pl]]; try apply Hcont.
      destruct (getPodReadyState p); [|apply Hcont].
      unfold ret. eexists None, s1, _. split; [reflexivity|].
      subst s1. cbn [log]. rewrite <- app_assoc. split; [reflexivity|].
      split; [cbn; lia|reflexivity].
Qed.

(** C3, as amended: with a budget [B] of at most 65530 seconds (so that
    the 16-bit counter does not wrap) and the interval of 10 seconds, the
    pass over [N] candidates returns, after at most [N * ceil(B/10)] poll
    ticks and at most [N] deletions, and the deletions are issued in the
    order of the list, without skipping a candidate. *)
Theorem deletePods_bounds (fuel : nat) (cr : OneAgent) (pods : list Pod) (B : Z)
    (s : State W) :
  WaitReadySeconds (Spec cr) = Some B -> 0 <= B <= 65530 ->
  (Z.to_nat ((B + 9) / splayTimeSeconds) < fuel)%nat ->
  exists err s' evs,
    deletePods fuel cr pods s = Done err s' /\
    log s' = (log s ++ evs)%list /\
    (pollTicks evs <= length pods * Z.to_nat ((B + 9) / splayTimeSeconds))%nat /\
    (length (deletions evs) <= length pods)%nat /\
    deletions evs `prefix_of` pods.
Proof.
  intros HB HBr Hfuel. unfold splayTimeSeconds in *.
  assert (Ht0 : ticksLeft B 0 = Z.to_nat ((B + 9) / 10)).
  { unfold ticksLeft. do 2 f_equal. lia. }
  assert (Hgoal : forall s, exists err s' evs,
    deletePods fuel cr pods s = Done err s' /\
    log s' = (log s ++ evs)%list /\
    (pollTicks evs <= length pods * Z.to_nat ((B + 9) / 10))%nat /\
    deletions evs `prefix_of` pods).
  { clear s. induction pods as [|pod rest IH]; intros s.
    - exists None, s, []. rewrite app_nil_r. by repeat split.
    - cbn [deletePods]. unfold bind at 1. unfold call at 1. cbn [fst snd].
      set (s1 := mkState _ _).
      destruct (action_Delete pod (world s)) as [w1 [e|]] eqn:Hdel; cbn [snd] in *.
      + unfold ret. eexists (Some e), s1, _. split; [reflexivity|].
        subst s1; cbn [log]. split; [reflexivity|]. split; [cbn; lia|].
        cbn. by apply prefix_cons, prefix_nil.
      + unfold bind at 1.
        destruct (waitReady_bounded cr
                    {| lo_FieldSelector := readyFieldSelector pod;
                       lo_LabelSelector := getLabels cr |} B HB (proj2 HBr)
                    _ fuel 0 None s1 Ht0 Hfuel) as (st & s2 & evs & Hr & Hl & Ht & Hd);
          [lia|reflexivity|].
        rewrite Hr. destruct st as [e|].
        * unfold ret. eexists (Some e), s2, _. split; [reflexivity|].
          rewrite Hl. subst s1; cbn [log]. rewrite <- app_assoc.
          split; [reflexivity|]. split.
          -- rewrite pollTicks_app. cbn [length]. cbn. lia.
          -- rewrite deletions_app, Hd. cbn. by apply prefix_cons, prefix_nil.
        * destruct (IH s2) as (err & s3 & evs' & Hr' & Hl' & Ht' & Hd').
          exists err, s3, ([EvDeletePod pod None] ++ evs ++ evs')%list.
          split; [done|]. rewrite Hl', Hl. subst s1; cbn [log].
          rewrite <- !app_assoc. split; [reflexivity|]. split.
          -- rewrite !pollTicks_app. cbn [length]. cbn. lia.
          -- rewrite !deletions_app, Hd. cbn. by apply prefix_cons. }
  destruct (Hgoal s) as (err & s' & evs & Hr & Hl & Ht & Hd).
  exists err, s', evs. repeat split; try done.
  by apply prefix_length.
Qed.

End Restart.

(** ** Concrete runs *)

Lemma injectInstallerToken_idempotent_witness :
  items (Env (ex_spec 15 ex_env)) ≠ [] /\
  exists spec1 u1,
    injectInstallerToken (ex_spec 15 ex_env) false = Some (spec1, u1) /\
    injectInstallerToken spec1 u1 = Some (spec1, u1).
Proof.
  assert (H : items (Env (ex_spec 15 ex_env)) ≠ []) by (simpl; discriminate).
  split; [exact H|].
  destruct (injectInstallerToken_idempotent (ex_spec 15 ex_env) false H)
    as (spec1 & u1 & H1 & H2 & _).
  exists spec1, u1. split; assumption.
Defined.



(** C1, as the claim states it, fails: a lookup that succeeds with an empty
    version makes the pod a candidate, where the claimed gate keeps it. *)
Lemma getPodsToRestart_retires_empty_version :
  let sc := ex_script_versions ("1.2.0", None) ex_empty_version in
  let answers := @lookups _ _ (scripted sc) tt [ex_pod1] 0%nat in
  answers = [(EmptyString, None)] /\
  (exists instances s',
     @getPodsToRestart _ _ (scripted sc) [ex_pod1] tt (ex_oneagent 15 ex_env) start =
       Done ([ex_pod1], instances) s') /\
  (filter (fun pa => stale_as_specified "1.2.0" pa) (zip [ex_pod1] answers)).*1 = [].
Proof.
  split; [reflexivity|]. split; [|vm_compute; reflexivity].
  eexists _, _. vm_compute. reflexivity.
Qed.


(** With a later pod on the same node, the map the pass returns holds the
    record of the later pod. *)
Lemma getPodsToRestart_later_pod_overwrites :
  let sc := ex_script_versions ("1.2.0", None) ex_first_host_unknown in
  exists doomed instances s',
    @getPodsToRestart _ _ (scripted sc) [ex_pod2; ex_pod1; ex_pod1_successor] tt
      (ex_oneagent 15 ex_env) start = Done (doomed, instances) s' /\
    instances !! "n1" = Some {| PodName := "oneagent-x9"; Version := "1.2.0" |}.
Proof.
  intros sc. eexists _, _, _. split; [vm_compute; reflexivity|]. vm_compute. reflexivity.
Qed.

Section RestartRuns.
Let K := scripted ex_script.

Lemma deletePods_bounds_witness :
  exists err s' evs,
    @deletePods _ _ K 5 (ex_oneagent 15 ex_env) [ex_pod1; ex_pod2] start = Done err s' /\
    log s' = (log start ++ evs)%list /\
    (pollTicks evs <= 2 * 2)%nat /\
    (length (deletions evs) <= 2)%nat /\
    deletions evs `prefix_of` [ex_pod1; ex_pod2].
Proof.
  apply (@deletePods_bounds _ _ K 5 (ex_oneagent 15 ex_env) [ex_pod1; ex_pod2] 15 start).
  - reflexivity.
  - lia.
  - vm_compute. lia.
Defined.

(** C3, as the claim states it, fails: two candidates, a budget of 15
    seconds and the interval of 10 seconds give four poll ticks, more than
    2 * (15 / 10); and the second candidate is deleted although no tick
    confirmed a replacement of the first. *)
Lemma deletePods_exceeds_claimed_bound :
  exists err s',
    @deletePods _ _ K 5 (ex_oneagent 15 ex_env) [ex_pod1; ex_pod2] start = Done err s' /\
    Z.of_nat (pollTicks (log s')) * splayTimeSeconds > 2 * 15 /\
    Z.of_nat (pollTicks (log s')) > 2 * (15 / splayTimeSeconds) /\
    deletions (log s') = [ex_pod1; ex_pod2] /\
    confirmations (log s') = [].
Proof.
  eexists _, _. split; [vm_compute; reflexivity|].
  vm_compute. repeat split; reflexivity.
Qed.

(** C2 fails on the code: no replacement shows up within the budget of 20
    seconds, each of the two ticks finds no pod and no error, and the pass
    goes on to delete the second candidate and returns nil. *)
Theorem deletePods_timeout_unreported :
  exists s',
    @deletePods _ _ K 5 (ex_oneagent 20 ex_env) [ex_pod1; ex_pod2] start = Done None s' /\
    pollTicks (log s') = 4%nat /\
    confirmations (log s') = [] /\
    deletions (log s') = [ex_pod1; ex_pod2].
Proof.
  eexists. split; [vm_compute; reflexivity|].
  vm_compute. repeat split; reflexivity.
Qed.

(** Past 65530 the counter wraps before it reaches the budget: after the
    tick entered with 65530 it is 4, below a budget of 65531, and the loop
    goes on. *)
Lemma splay_wraps :
  uint16 (65530 + splayTimeSeconds) = 4 /\
  bool_decide (uint16 (65530 + splayTimeSeconds) < 65531) = true.
Proof. split; reflexivity. Qed.

End RestartRuns.

(** ** The pass as a whole (handler.go:35) *)

Lemma emitted_app {W A} (s : State W) (out : Res W A) evs :
  log (final out) = (log s ++ evs)%list -> emitted s out = evs.
Proof. intros H. unfold emitted. rewrite H. apply drop_app_length. Qed.

Lemma readyFieldSelector_nonempty pod : readyFieldSelector pod ≠ EmptyString.
Proof. unfold readyFieldSelector. simpl. discriminate. Qed.

(** Closes [exists evs, Forall P evs /\ log _ = log s ++ evs] once the run
    is evaluated: the log equation fixes the events. *)
Ltac close_emits :=
  eexists; split; cycle 1;
  [ cbn [final log]; rewrite <- ?app_assoc; reflexivity
  | simpl; repeat first [exact I | assumption | constructor | apply Forall_app] ].

Section Pass.
Context {W Client : Type} `{!Collaborators W Client}.

Lemma getSecretKey_run cr key s :
  exists v err data e0,
    getSecretKey cr key s =
      Done (v, err)
           (mkState (query_Get_Secret (oa_Namespace cr) (Tokens (Spec cr)) (world s)).1
                    (log s ++ [EvGetSecret (oa_Namespace cr) (Tokens (Spec cr)) data e0])%list).
Proof.
  unfold getSecretKey, bind, call, ret. cbn [fst snd].
  destruct (query_Get_Secret _ _ _) as [w' [data [e|]]]; cbn [fst snd].
  - eexists _, _, _, _. reflexivity.
  - destruct (mapget data key); eexists _, _, _, _; reflexivity.
Qed.

Lemma upsertDaemonSet_run oa s :
  (forall s', upsertDaemonSet oa s ≠ OutOfFuel s') /\
  exists evs, Forall preludeEvent evs /\
    log (final (upsertDaemonSet oa s)) = (log s ++ evs)%list.
Proof.
  unfold upsertDaemonSet, bind, call, ret, throw. cbn [fst snd].
  destruct (query_Get_DaemonSet _ _) as [w' [ds [e|]]]; cbn [fst snd].
  - destruct (IsNotFound e).
    + destruct (applyOneAgentSettings _ _); (split; [done|close_emits]).
    + split; [done|close_emits].
  - destruct (hasSpecChanged _ _) as [[|]|].
    + destruct (applyOneAgentSettings _ _); (split; [done|close_emits]).
    + split; [done|close_emits].
    + split; [done|close_emits].
Qed.

Lemma waitReady_emits cr listOps :
  lo_FieldSelector listOps ≠ EmptyString ->
  forall fuel splay status s,
    exists evs, Forall retirementEvent evs /\
      log (final (waitReady fuel cr listOps splay status s)) = (log s ++ evs)%list.
Proof.
  intros Hsel. induction fuel as [|fuel IH]; intros splay status s.
  - exists []. rewrite app_nil_r. by split.
  - cbn [waitReady]. destruct (WaitReadySeconds (Spec cr)) as [budget|].
    + case_bool_decide.
      * unfold bind at 1. unfold call at 1. cbn [fst snd].
        unfold bind at 1. unfold call at 1. cbn [fst snd world log].
        set (s1 := mkState _ _).
        assert (Hcont : forall sp st,
          exists evs, Forall retirementEvent evs /\
            log (final (waitReady fuel cr listOps sp st s1)) = (log s ++ evs)%list).
        { intros sp st. destruct (IH sp st s1) as (evs & Hev & Hl).
          rewrite Hl. subst s1. close_emits. }
        destruct (query_List _ _ _) as [w' [pList [e|]]] eqn:HL; cbn [fst snd] in *.
        -- apply Hcont.
        -- destruct pList as [|p [|p' pl]]; try apply Hcont.
           destruct (getPodReadyState p); [|apply Hcont].
           unfold ret. subst s1. close_emits.
      * exists []. rewrite app_nil_r. by split.
    + exists []. rewrite app_nil_r. by split.
Qed.

Lemma deletePods_emits fuel cr pods : forall s,
  exists evs, Forall retirementEvent evs /\
    log (final (deletePods fuel cr pods s)) = (log s ++ evs)%list.
Proof.
  induction pods as [|pod rest IH]; intros s.
  - exists []. rewrite app_nil_r. by split.
  - cbn [deletePods]. unfold bind at 1. unfold call at 1. cbn [fst snd].
    set (s1 := mkState _ _).
    destruct (action_Delete pod (world s)) as [w1 [e|]] eqn:Hdel; cbn [snd] in *.
    + unfold ret. subst s1. close_emits.
    + unfold bind at 1.
      destruct (waitReady_emits cr
                  {| lo_FieldSelector := readyFieldSelector pod;
                     lo_LabelSelector := getLabels cr |}
                  (readyFieldSelector_nonempty pod) fuel 0 None s1) as (evs & Hev & Hl).
      destruct (waitReady _ _ _ _ _ _) as [[e|] s2|p s2|s2]; cbn [final] in Hl.
      * unfold ret. cbn [final]. rewrite Hl. subst s1. close_emits.
      * destruct (IH s2) as (evs' & Hev' & Hl').
        rewrite Hl', Hl. subst s1. close_emits.
      * cbn [final]. rewrite Hl. subst s1. close_emits.
      * cbn [final]. rewrite Hl. subst s1. close_emits.
Qed.

End Pass.
Lemma defaultTokens_Status oa u : Status (defaultTokens oa u).1 = Status oa.
Proof. unfold defaultTokens. by case_bool_decide. Qed.

Lemma applyDesiredVersion_target desired oa u :
  st_Version (Status (applyDesiredVersion desired oa u).1) = targetAfter desired oa /\
  st_Items (Status (applyDesiredVersion desired oa u).1) = st_Items (Status oa).
Proof.
  unfold applyDesiredVersion, targetAfter.
  destruct (bool_decide (desired ≠ EmptyString) && _); by split.
Qed.

Lemma applyInstances_Status instances oa u :
  st_Version (Status (applyInstances instances oa u).1) = st_Version (Status oa) /\
  st_Items (Status (applyInstances instances oa u).1) = Some instances.
Proof.
  unfold applyInstances. case_bool_decide as Heq; simpl; [by rewrite <- Heq|done].
Qed.

Lemma lookupEvents_lookup pods : forall ans, Forall lookupEvent (lookupEvents pods ans).
Proof.
  unfold lookupEvents. induction pods as [|p pods IH]; intros [|a ans]; simpl;
    try constructor; [exact I|apply IH].
Qed.

Ltac use_log :=
  unfold passShape, ret, throw; cbn [final];
  repeat match goal with H : log ?x = _ |- context [log ?x] => rewrite H end.

Ltac prelude_events :=
  simpl; repeat first [exact I | assumption | constructor | apply Forall_app].

Ltac stop_in_prelude :=
  use_log; eexists; split; cycle 1;
  [ left; cbn [final log]; rewrite <- ?app_assoc; reflexivity | prelude_events ].

Section Trace.
Context {W Client : Type} `{!Collaborators W Client}.

Lemma HandleOneAgent_trace fuel oa s : passShape oa s (HandleOneAgent fuel oa s).
Proof.
  unfold HandleOneAgent.
  pose proof (defaultTokens_Status oa false) as Hst1.
  destruct (defaultTokens oa false) as [oa1 u1]. cbn [fst] in Hst1.
  unfold bind at 1.
  destruct (getSecretKey_run oa1 "paasToken" s) as (v1 & e1 & d1 & x1 & ->).
  destruct e1 as [e1|]; [stop_in_prelude|].
  unfold bind at 1.
  match goal with |- context [getSecretKey oa1 "apiToken" ?st] =>
    destruct (getSecretKey_run oa1 "apiToken" st) as (v2 & e2 & d2 & x2 & ->) end.
  cbn [world log].
  destruct e2 as [e2|]; [stop_in_prelude|].
  destruct (injectInstallerToken (Spec oa1) u1) as [[spec u2]|]; [|stop_in_prelude].
  set (oa2 := with_Spec spec oa1).
  assert (Hst2 : Status oa2 = Status oa) by (subst oa2; exact Hst1).
  unfold bind at 1.
  match goal with |- context [upsertDaemonSet oa2 ?st] =>
    destruct (upsertDaemonSet_run oa2 st) as (Hnf & evs & Hev & Hl);
    destruct (upsertDaemonSet oa2 st) as [[e3|] s3|p3 s3|s3] end;
    cbn [final log] in Hl.
  1: stop_in_prelude.
  2: stop_in_prelude.
  2: by destruct (Hnf s3).
  unfold bind at 1. unfold call at 1. cbn [fst snd].
  destruct (NewClient _ _ _ (world s3)) as [w4 [dtc [e4|]]]; cbn [fst snd].
  { stop_in_prelude. }
  destruct dtc as [dtc|]; [|stop_in_prelude].
  (* the prelude is over: name its events *)
  match goal with |- context [(log s3 ++ [?ev])%list] =>
    assert (Hpre : exists pre, Forall preludeEvent pre /\
                               (log s3 ++ [ev])%list = (log s ++ pre)%list)
      by (rewrite Hl; eexists; split; cycle 1;
          [rewrite <- ?app_assoc; reflexivity|prelude_events]);
    destruct Hpre as (pre & Hpre & ->) end.
  clear Hl Hev Hnf.
  unfold bind at 1. unfold call at 1. cbn [fst snd world log].
  destruct (GetVersionForLatest dtc w4) as [w5 [desired [e5|]]]; cbn [fst snd].
  { unfold passShape, ret. exists pre. split; [exact Hpre|].
    right; left. eexists _, _, _, _. split; [reflexivity|]. split; [exact Hst2|].
    cbn [log]. by rewrite <- app_assoc. }
  pose proof (applyDesiredVersion_target desired oa2 u2) as [HV3 HI3].
  destruct (applyDesiredVersion desired oa2 u2) as [oa3 u3]. cbn [fst] in HV3, HI3.
  assert (HV : st_Version (Status oa3) = targetAfter desired oa).
  { rewrite HV3. unfold targetAfter. by rewrite Hst2. }
  clear HV3 HI3.
  unfold bind at 1. unfold call at 1. cbn [fst snd world log].
  destruct (query_List _ _ w5) as [w6 [podList [e6|]]]; cbn [fst snd].
  { unfold passShape, ret. exists pre. split; [exact Hpre|].
    right; right. eexists desired, _, _, _, (Some e6), []. split; [|split; [|split]].
    - cbn [final log]. rewrite <- !app_assoc. reflexivity.
    - reflexivity.
    - intros o [= <-]. exact HV.
    - reflexivity. }
  unfold bind at 1. unfold getPodsToRestart. rewrite forPods_run. cbv zeta.
  cbn [world log app].
  set (ans := lookups dtc podList w6).
  set (doomed := (filter _ _).*1).
  set (instances := foldl _ _ _).
  assert (Hdom : dom instances = list_to_set (pod_NodeName <$> podList)).
  { subst instances ans. rewrite records_dom. set_solver. }
  pose proof (applyInstances_Status instances oa3 u3) as [HV4 HI4].
  destruct (applyInstances instances oa3 u3) as [oa4 u4]. cbn [fst] in HV4, HI4.
  assert (Hset : settled (targetAfter desired oa) podList oa4).
  { split; [by rewrite HV4|]. exists instances. by split. }
  unfold bind at 1.
  match goal with |- context [deletePods fuel oa4 doomed ?st] =>
    destruct (deletePods_emits fuel oa4 doomed st) as (rt & Hret & Hld);
    destruct (deletePods fuel oa4 doomed st) as [[e7|] s7|p7 s7|s7] end;
    cbn [final log] in Hld.
  all: rewrite <- !app_assoc in Hld; cbn [app] in Hld.
  2: destruct u4;
       [ unfold bind at 1; unfold gets at 1; unfold bind at 1; unfold call at 1;
         cbn [fst snd]; set (oa5 := with_Status _ oa4);
         assert (Hset5 : settled (targetAfter desired oa) podList oa5)
           by (destruct Hset as [Hv (m & Hm & Hd)]; split; [exact Hv|]; exists m; by split)
       | ].
  all: unfold passShape, ret; exists pre; split; [exact Hpre|];
    right; right; cbn [final log]; rewrite Hld.
  - eexists desired, _, _, podList, None, (lookupEvents podList ans ++ rt ++ [])%list.
    split; [by rewrite app_nil_r|]. split; [reflexivity|].
    split; [intros o [= <-]; by destruct Hset|].
    exists (lookupEvents podList ans), rt, [].
    split; [reflexivity|]. split; [apply lookupEvents_lookup|]. split; [exact Hret|].
    split; [by left|]. intros o [= <-]. exact Hset.
  - eexists desired, _, _, podList, None, (lookupEvents podList ans ++ rt ++ [_])%list.
    split; [rewrite <- ?app_assoc; cbn [app]; rewrite <- ?app_assoc; reflexivity|].
    split; [reflexivity|].
    split; [intros o [= <-]; by destruct Hset5|].
    eexists (lookupEvents podList ans), rt, [_].
    split; [reflexivity|]. split; [apply lookupEvents_lookup|]. split; [exact Hret|].
    split; [right; eauto|]. intros o [= <-]. exact Hset5.
  - eexists desired, _, _, podList, None, (lookupEvents podList ans ++ rt ++ [])%list.
    split; [by rewrite app_nil_r|]. split; [reflexivity|].
    split; [intros o [= <-]; by destruct Hset|].
    exists (lookupEvents podList ans), rt, [].
    split; [reflexivity|]. split; [apply lookupEvents_lookup|]. split; [exact Hret|].
    split; [by left|]. intros o [= <-]. exact Hset.
  - eexists desired, _, _, podList, None, (lookupEvents podList ans ++ rt ++ [])%list.
    split; [by rewrite app_nil_r|]. split; [reflexivity|].
    split; [intros o [=]|].
    exists (lookupEvents podList ans), rt, [].
    split; [reflexivity|]. split; [apply lookupEvents_lookup|]. split; [exact Hret|].
    split; [by left|]. intros o [=].
  - eexists desired, _, _, podList, None, (lookupEvents podList ans ++ rt ++ [])%list.
    split; [by rewrite app_nil_r|]. split; [reflexivity|].
    split; [intros o [=]|].
    exists (lookupEvents podList ans), rt, [].
    split; [reflexivity|]. split; [apply lookupEvents_lookup|]. split; [exact Hret|].
    split; [by left|]. intros o [=].
Qed.

End Trace.

(** Splits a membership in a log of known shape into its positions, and
    drops the positions whose phase excludes the event. *)
Ltac locate H :=
  repeat match type of H with
  | _ ∈ (_ ++ _)%list => apply elem_of_app in H as [H|H]
  | _ ∈ _ :: _ => apply elem_of_cons in H as [H|H]
  | _ ∈ [] => by apply elem_of_nil in H
  end;
  try discriminate H;
  try match type of H with
  | ?x ∈ ?l =>
    match goal with
    | F : Forall _ l |- _ =>
      let P := fresh in
      pose proof (proj1 (Forall_forall _ _) F _ H) as P; simpl in P; try contradiction
    end
  end.

Section PassProperties.
Context {W Client : Type} `{!Collaborators W Client}.

(** C6: in every pass in which the query for the latest version fails,
    the handler returns nil, leaves the status of the object as it was,
    deletes no pod and writes no status. *)
Theorem HandleOneAgent_latest_fails (fuel : nat) (oa : OneAgent) (s : State W)
    (ver : string) (e : error) :
  EvGetVersionForLatest ver (Some e) ∈ emitted s (HandleOneAgent fuel oa s) ->
  exists o s',
    HandleOneAgent fuel oa s = Done (o, None) s' /\
    Status o = Status oa /\
    deletions (emitted s (HandleOneAgent fuel oa s)) = [] /\
    (forall cr err, EvUpdateOneAgent cr err ∉ emitted s (HandleOneAgent fuel oa s)).
Proof.
  intros Hin.
  destruct (HandleOneAgent_trace fuel oa s) as (pre & Hpre & Hshape).
  destruct Hshape as [Hl|[(v & e' & o & s' & Hout & Hst & Hl)|
                          (d & ns & ops & pods & lerr & rest & Hl & _ & _ & Hrest)]].
  - apply emitted_app in Hl. rewrite Hl in Hin. locate Hin.
  - exists o, s'. split; [exact Hout|]. split; [exact Hst|].
    rewrite Hout in *.
    rewrite (emitted_app s (Done (o, @None error) s') _ Hl). clear Hin Hl. split.
    + rewrite deletions_app. cbn. rewrite app_nil_r.
      induction Hpre as [|x l Hx _ IH]; [done|].
      destruct x; try contradiction; exact IH.
    + intros cr err Hin. locate Hin.
  - apply emitted_app in Hl. rewrite Hl in Hin.
    destruct lerr as [el|].
    + subst rest. locate Hin.
    + destruct Hrest as (lk & rt & upd & -> & Hlk & Hret & Hupd & _).
      destruct Hupd as [->|(o' & e' & -> & _)]; locate Hin.
Qed.

(** C8: in every pass that lists the live pods, the status of the object
    that the handler returns, and of every object that it writes, holds a
    map whose keys are exactly the node names of the listed pods. *)
Theorem HandleOneAgent_keys (fuel : nat) (oa : OneAgent) (s : State W)
    (ns : string) (ops : ListOptions) (pods : list Pod) :
  EvListPods ns ops pods None ∈ emitted s (HandleOneAgent fuel oa s) ->
  lo_FieldSelector ops = EmptyString ->
  (forall o, returned (HandleOneAgent fuel oa s) = Some o ->
     exists m, st_Items (Status o) = Some m /\
               dom m = list_to_set (pod_NodeName <$> pods)) /\
  (forall cr err, EvUpdateOneAgent cr err ∈ emitted s (HandleOneAgent fuel oa s) ->
     exists m, st_Items (Status cr) = Some m /\
               dom m = list_to_set (pod_NodeName <$> pods)).
Proof.
  intros Hin Hsel.
  destruct (HandleOneAgent_trace fuel oa s) as (pre & Hpre & Hshape).
  destruct Hshape as [Hl|[(v & e' & o & s' & Hout & Hst & Hl)|
                          (d & ns' & ops' & pods' & lerr & rest & Hl & _ & _ & Hrest)]].
  - apply emitted_app in Hl. rewrite Hl in Hin. locate Hin.
  - rewrite Hout in *.
    rewrite (emitted_app s (Done (o, @None error) s') _ Hl) in Hin. locate Hin.
  - apply emitted_app in Hl. rewrite Hl in *.
    destruct lerr as [el|].
    + subst rest. locate Hin.
    + destruct Hrest as (lk & rt & upd & -> & Hlk & Hret & Hupd & Hdone).
      assert (Hpods : pods' = pods).
      { destruct Hupd as [->|(o' & e' & -> & _)]; locate Hin; congruence. }
      subst pods'. split.
      * intros o Ho. by destruct (Hdone o Ho).
      * intros cr err Hu.
        destruct Hupd as [->|(o' & e' & -> & Hs)]; locate Hu.
        injection Hu as -> ->. by destruct Hs.
Qed.

(** C10: a successful query that answers the empty string leaves object
    and change flag as they are; the target version changes exactly when
    the answer is not empty and differs from it, and the flag is then set;
    and in every pass whose query answers the empty string, the object
    returned and every object written carry the previous target version. *)
Theorem HandleOneAgent_empty_latest (fuel : nat) (oa : OneAgent) (s : State W) :
  (forall u, applyDesiredVersion EmptyString oa u = (oa, u)) /\
  (forall desired u,
     desired = EmptyString \/ st_Version (Status oa) = desired ->
     applyDesiredVersion desired oa u = (oa, u)) /\
  (forall desired u,
     desired ≠ EmptyString -> st_Version (Status oa) ≠ desired ->
     applyDesiredVersion desired oa u
       = (with_Status (with_Version desired (Status oa)) oa, true)) /\
  (EvGetVersionForLatest EmptyString None ∈ emitted s (HandleOneAgent fuel oa s) ->
   (forall o, returned (HandleOneAgent fuel oa s) = Some o ->
      st_Version (Status o) = st_Version (Status oa)) /\
   (forall cr err, EvUpdateOneAgent cr err ∈ emitted s (HandleOneAgent fuel oa s) ->
      st_Version (Status cr) = st_Version (Status oa))).
Proof.
  split; [intros u; reflexivity|]. split; [|split].
  - intros desired u [->| <-]; unfold applyDesiredVersion; [reflexivity|].
    rewrite (bool_decide_eq_false_2 (st_Version (Status oa) ≠ st_Version (Status oa)))
      by (intros Hn; by apply Hn).
    by rewrite andb_false_r.
  - intros desired u H1 H2. unfold applyDesiredVersion.
    by rewrite !bool_decide_eq_true_2.
  - intros Hin.
    destruct (HandleOneAgent_trace fuel oa s) as (pre & Hpre & Hshape).
    destruct Hshape as [Hl|[(v & e' & o & s' & Hout & Hst & Hl)|
                            (d & ns' & ops' & pods' & lerr & rest & Hl & _ & Hver & Hrest)]].
    + apply emitted_app in Hl. rewrite Hl in Hin. locate Hin.
    + rewrite Hout in *.
      rewrite (emitted_app s (Done (o, @None error) s') _ Hl) in Hin. locate Hin.
    + apply emitted_app in Hl. rewrite Hl in *.
      assert (Hd : d = EmptyString).
      { destruct lerr as [el|].
        - subst rest. locate Hin. congruence.
        - destruct Hrest as (lk & rt & upd & -> & Hlk & Hret & Hupd & _).
          destruct Hupd as [->|(o' & e' & -> & _)]; locate Hin; congruence. }
      subst d. change (targetAfter EmptyString oa) with (st_Version (Status oa)) in *.
      split; [exact Hver|].
      intros cr err Hu. destruct lerr as [el|].
      * subst rest. locate Hu.
      * destruct Hrest as (lk & rt & upd & -> & Hlk & Hret & Hupd & _).
        destruct Hupd as [->|(o' & e' & -> & Hs)]; locate Hu.
        injection Hu as -> ->. by destruct Hs.
Qed.

Lemma HandleOneAgent_stops_on_empty_env fuel oa s :
  items (Env (Spec oa)) = [] ->
  (exists s', HandleOneAgent fuel oa s = Panicked IndexOutOfRange s') \/
  (exists o e s', HandleOneAgent fuel oa s = Done (o, Some e) s').
Proof.
  intros Hempty.
  enough (Hgen : forall P : Res W (OneAgent * option error) -> Prop,
            (forall s', P (Panicked IndexOutOfRange s')) ->
            (forall o e s', P (Done (o, Some e) s')) ->
            P (HandleOneAgent fuel oa s)).
  { apply (Hgen (fun out => (exists s', out = Panicked IndexOutOfRange s') \/
                            (exists o e s', out = Done (o, Some e) s'))); eauto. }
  intros P Hpanic Herr. unfold HandleOneAgent.
  assert (He1 : injectInstallerToken (Spec (defaultTokens oa false).1)
                  (defaultTokens oa false).2 = None).
  { apply injectInstallerToken_empty_env. unfold defaultTokens.
    by case_bool_decide. }
  destruct (defaultTokens oa false) as [oa1 u1]. cbn [fst snd] in He1.
  unfold bind at 1.
  destruct (getSecretKey_run oa1 "paasToken" s) as (v1 & e1 & d1 & x1 & ->).
  destruct e1 as [e1|]; [apply Herr|].
  unfold bind at 1.
  match goal with |- context [getSecretKey oa1 "apiToken" ?st] =>
    destruct (getSecretKey_run oa1 "apiToken" st) as (v2 & e2 & d2 & x2 & ->) end.
  destruct e2 as [e2|]; [apply Herr|].
  rewrite He1. apply Hpanic.
Qed.

(** C9: the injection has no result exactly when the environment list is
    empty (nil or of length zero), because the read of [Env[0]] is out of
    range; a pass over an object with an empty environment list never gets
    past that read, and panics there once both tokens were read. *)
Theorem HandleOneAgent_empty_env (fuel : nat) (oa : OneAgent) (s : State W) :
  (forall spec u, injectInstallerToken spec u = None <-> items (Env spec) = []) /\
  (items (Env (Spec oa)) = [] ->
   ((exists s', HandleOneAgent fuel oa s = Panicked IndexOutOfRange s') \/
    (exists o e s', HandleOneAgent fuel oa s = Done (o, Some e) s')) /\
   (forall p1 s1 p2 s2,
      getSecretKey (defaultTokens oa false).1 "paasToken" s = Done (p1, None) s1 ->
      getSecretKey (defaultTokens oa false).1 "apiToken" s1 = Done (p2, None) s2 ->
      HandleOneAgent fuel oa s = Panicked IndexOutOfRange s2)).
Proof.
  split; [apply injectInstallerToken_empty_env|].
  intros Hempty. split; [by apply HandleOneAgent_stops_on_empty_env|].
  intros p1 s1 p2 s2 H1 H2. unfold HandleOneAgent.
  assert (He1 : injectInstallerToken (Spec (defaultTokens oa false).1)
                  (defaultTokens oa false).2 = None).
  { apply injectInstallerToken_empty_env. unfold defaultTokens.
    by case_bool_decide. }
  destruct (defaultTokens oa false) as [oa1 u1]. cbn [fst snd] in *.
  unfold bind at 1. rewrite H1. unfold bind at 1. rewrite H2. by rewrite He1.
Qed.

End PassProperties.

(** ** Concrete passes *)

Lemma HandleOneAgent_latest_fails_witness :
  exists o s',
    @HandleOneAgent _ _ (scripted ex_script_unreachable) 5 (ex_oneagent 15 ex_env) start
      = Done (o, None) s' /\
    Status o = Status (ex_oneagent 15 ex_env).
Proof.
  destruct (@HandleOneAgent_latest_fails _ _ (scripted ex_script_unreachable) 5
              (ex_oneagent 15 ex_env) start EmptyString (ApiError false "unreachable"))
    as (o & s' & Hout & Hst & _).
  - vm_compute. repeat constructor.
  - exists o, s'. split; assumption.
Defined.

Lemma HandleOneAgent_keys_witness :
  exists o m,
    returned (@HandleOneAgent _ _ (scripted ex_script) 5 (ex_oneagent 15 ex_env) start)
      = Some o /\
    st_Items (Status o) = Some m /\
    dom m = list_to_set (pod_NodeName <$> [ex_pod1; ex_pod2]).
Proof.
  destruct (@HandleOneAgent_keys _ _ (scripted ex_script) 5 (ex_oneagent 15 ex_env) start
              "dynatrace"
              {| lo_FieldSelector := EmptyString;
                 lo_LabelSelector := getLabels (ex_oneagent 15 ex_env) |}
              [ex_pod1; ex_pod2]) as [Hret _].
  - vm_compute. repeat constructor.
  - reflexivity.
  - assert (Ho : exists o,
               returned (@HandleOneAgent _ _ (scripted ex_script) 5
                           (ex_oneagent 15 ex_env) start) = Some o)
      by (eexists; vm_compute; reflexivity).
    destruct Ho as (o & Ho). destruct (Hret o Ho) as (m & Hm & Hd).
    exists o, m. repeat split; assumption.
Defined.

Lemma HandleOneAgent_empty_latest_witness :
  exists o,
    returned (@HandleOneAgent _ _ (scripted ex_script_empty_latest) 5
                (ex_oneagent 15 ex_env) start) = Some o /\
    st_Version (Status o) = "1.2.0".
Proof.
  destruct (@HandleOneAgent_empty_latest _ _ (scripted ex_script_empty_latest) 5
              (ex_oneagent 15 ex_env) start) as (_ & _ & _ & Hpass).
  destruct Hpass as [Hret _]; [vm_compute; repeat constructor|].
  assert (Ho : exists o,
             returned (@HandleOneAgent _ _ (scripted ex_script_empty_latest) 5
                         (ex_oneagent 15 ex_env) start) = Some o)
    by (eexists; vm_compute; reflexivity).
  destruct Ho as (o & Ho). exists o. split; [exact Ho|exact (Hret o Ho)].
Defined.

Lemma HandleOneAgent_empty_env_witness :
  exists s2,
    @HandleOneAgent _ _ (scripted ex_script) 5 (ex_oneagent 15 (Some [])) start
      = Panicked IndexOutOfRange s2.
Proof.
  eexists.
  eapply (proj2 (@HandleOneAgent_empty_env _ _ (scripted ex_script) 5
                   (ex_oneagent 15 (Some [])) start)).
  - reflexivity.
  - vm_compute. reflexivity.
  - vm_compute. reflexivity.
Defined.

(** ** The entry point *)

Section Entry.
Context {W Client : Type} `{!Collaborators W Client}.

(** A delete event, and an event for another kind of object, are ignored:
    nil is returned and no collaborator is called. *)
Lemma Handle_ignored fuel event s :
  ev_Deleted event = true \/ ev_Object event = ObjOther ->
  Handle fuel event s = Done (ev_Object event, None) s.
Proof.
  unfold Handle, ret. intros [Hd|Ho].
  - rewrite Hd. by destruct (ev_Object event).
  - by rewrite Ho.
Qed.

(** Otherwise [Handle] is the pass over the object. *)
Lemma Handle_pass fuel oa s :
  final (Handle fuel {| ev_Object := ObjOneAgent oa; ev_Deleted := false |} s)
    = final (HandleOneAgent fuel oa s) /\
  (forall o err s',
     HandleOneAgent fuel oa s = Done (o, err) s' ->
     Handle fuel {| ev_Object := ObjOneAgent oa; ev_Deleted := false |} s
       = Done (ObjOneAgent o, err) s').
Proof.
  unfold Handle, bind, ret. cbn [ev_Object ev_Deleted].
  destruct (HandleOneAgent fuel oa s) as [[o err] s'|p s'|s']; split; try done.
  by intros o' err' s'' [= <- <- <-].
Qed.

End Entry.

(** * Further properties of the handler *)

(** ** Ready state and DaemonSet synthesis *)

Lemma fold_ready l : forall b,
  fold_left (fun ready c => ready && cs_Ready c) l b = b && forallb cs_Ready l.
Proof.
  induction l as [|c l IH]; intros b; simpl.
  - by rewrite andb_true_r.
  - by rewrite IH, andb_assoc.
Qed.

(** X1: a pod is ready exactly when every container status is ready; a
    pod without container statuses counts as ready. *)
Theorem getPodReadyState_all (p : Pod) :
  (getPodReadyState p = true <->
   Forall (fun c => cs_Ready c = true) (items (pod_ContainerStatuses p))) /\
  (items (pod_ContainerStatuses p) = [] -> getPodReadyState p = true).
Proof.
  unfold getPodReadyState. rewrite fold_ready. cbn [andb]. split.
  - rewrite forallb_forall. rewrite Forall_forall. split.
    + intros H c Hc. apply H. by apply list_elem_of_In.
    + intros H c Hc. apply H. by apply list_elem_of_In.
  - by intros ->.
Qed.

Lemma hasSpecChanged_None_iff (dsSpec : DaemonSetSpec) (cr : OneAgent) :
  hasSpecChanged dsSpec cr = None <-> items (ps_Containers (dss_TemplateSpec dsSpec)) = [].
Proof.
  unfold hasSpecChanged, copyDaemonSetSpecToOneAgentSpec. rewrite <- index_0_None.
  destruct (index (ps_Containers (dss_TemplateSpec dsSpec)) 0); split; congruence.
Qed.

Lemma applyOneAgentSettings_None_iff (ds : DaemonSet) (cr : OneAgent) :
  applyOneAgentSettings ds cr = None
  <-> items (ps_Containers (dss_TemplateSpec (ds_Spec ds))) = [].
Proof.
  unfold applyOneAgentSettings. rewrite <- index_0_None.
  destruct (index (ps_Containers (dss_TemplateSpec (ds_Spec ds))) 0); split; congruence.
Qed.

Lemma merged_same {A} (x : option A) : merged x x = x.
Proof. by destruct x. Qed.

Lemma applyOneAgentSettings_sync (ds ds' : DaemonSet) (cr : OneAgent) :
  applyOneAgentSettings ds cr = Some ds' -> hasSpecChanged (ds_Spec ds') cr = Some false.
Proof.
  unfold applyOneAgentSettings, index.
  destruct (items (ps_Containers (dss_TemplateSpec (ds_Spec ds)))) as [|c0 cs] eqn:Hcs;
    [discriminate|].
  cbn [lookup list_lookup]. intros [= <-]. unfold hasSpecChanged.
  erewrite copyDaemonSetSpecToOneAgentSpec_merged by reflexivity.
  cbn. rewrite !merged_same. f_equal. apply negb_false_iff, bool_decide_eq_true.
  by destruct (Spec cr).
Qed.

Lemma applyOneAgentDefaults_applies (ds : DaemonSet) (cr : OneAgent) :
  exists ds', applyOneAgentSettings (applyOneAgentDefaults ds cr) cr = Some ds'.
Proof. eexists. reflexivity. Qed.

(** X2: the drift check and the application of the settings have a result
    exactly when the live spec has a first container. *)
Theorem hasSpecChanged_no_container (ds : DaemonSet) (cr : OneAgent) :
  (hasSpecChanged (ds_Spec ds) cr = None
   <-> items (ps_Containers (dss_TemplateSpec (ds_Spec ds))) = []) /\
  (applyOneAgentSettings ds cr = None
   <-> items (ps_Containers (dss_TemplateSpec (ds_Spec ds))) = []).
Proof.
  split; [apply hasSpecChanged_None_iff|apply applyOneAgentSettings_None_iff].
Qed.

(** X3: the extraction of the controlled fields leaves the fields the
    DaemonSet does not hold (API URL, certificate check, tokens, wait
    budget) as they are, and extracting a second time changes nothing. *)
Theorem copyDaemonSetSpecToOneAgentSpec_keeps (dsSpec : DaemonSetSpec)
    (spec spec' : OneAgentSpec) :
  copyDaemonSetSpecToOneAgentSpec dsSpec spec = Some spec' ->
  ApiUrl spec' = ApiUrl spec /\ SkipCertCheck spec' = SkipCertCheck spec /\
  Tokens spec' = Tokens spec /\ WaitReadySeconds spec' = WaitReadySeconds spec /\
  copyDaemonSetSpecToOneAgentSpec dsSpec spec' = Some spec'.
Proof.
  intros H.
  destruct (index (ps_Containers (dss_TemplateSpec dsSpec)) 0) as [c0|] eqn:Hc;
    [|unfold copyDaemonSetSpecToOneAgentSpec in H; by rewrite Hc in H].
  rewrite (copyDaemonSetSpecToOneAgentSpec_merged _ _ _ Hc) in H. injection H as <-.
  repeat split.
  rewrite (copyDaemonSetSpecToOneAgentSpec_merged _ _ _ Hc). cbn.
  unfold merged.
  destruct (ps_NodeSelector _), (ps_Tolerations _), (ctr_Args c0), (ctr_Env c0);
    reflexivity.
Qed.

(** X4: applying the settings keeps identity, owner references and every
    structural default of the DaemonSet (volumes, host namespaces, service
    account, the other containers, and name, pull policy, mounts, security
    context and probe of the first container). *)
Theorem applyOneAgentSettings_structure (ds ds' : DaemonSet) (cr : OneAgent) :
  applyOneAgentSettings ds cr = Some ds' ->
  let tpl := dss_TemplateSpec (ds_Spec ds) in
  let tpl' := dss_TemplateSpec (ds_Spec ds') in
  (ds_APIVersion ds' = ds_APIVersion ds /\ ds_Kind ds' = ds_Kind ds /\
   ds_Name ds' = ds_Name ds /\ ds_Namespace ds' = ds_Namespace ds /\
   ds_OwnerReferences ds' = ds_OwnerReferences ds) /\
  (ps_Volumes tpl' = ps_Volumes tpl /\ ps_HostNetwork tpl' = ps_HostNetwork tpl /\
   ps_HostPID tpl' = ps_HostPID tpl /\ ps_HostIPC tpl' = ps_HostIPC tpl /\
   ps_ServiceAccountName tpl' = ps_ServiceAccountName tpl) /\
  length (items (ps_Containers tpl')) = length (items (ps_Containers tpl)) /\
  (forall i, (0 < i)%nat ->
     items (ps_Containers tpl') !! i = items (ps_Containers tpl) !! i) /\
  (exists c0 c0',
     index (ps_Containers tpl) 0 = Some c0 /\ index (ps_Containers tpl') 0 = Some c0' /\
     ctr_Name c0' = ctr_Name c0 /\ ctr_ImagePullPolicy c0' = ctr_ImagePullPolicy c0 /\
     ctr_VolumeMounts c0' = ctr_VolumeMounts c0 /\
     ctr_SecurityContext c0' = ctr_SecurityContext c0 /\
     ctr_ReadinessProbe c0' = ctr_ReadinessProbe c0).
Proof.
  unfold applyOneAgentSettings, index.
  destruct (items (ps_Containers (dss_TemplateSpec (ds_Spec ds)))) as [|c0 cs] eqn:Hcs;
    [discriminate|].
  cbn [lookup list_lookup]. intros [= <-]. cbn.
  split; [done|]. split; [done|]. split; [done|]. split.
  - intros [|i] Hi; [lia|done].
  - exists c0. eexists. split; [reflexivity|]. split; [reflexivity|]. done.
Qed.

(** X5: applying the settings gives the DaemonSet the controlled fields of
    the custom resource and one label set for object, selector and
    template, so that the drift check on the result reports no drift. *)
Theorem applyOneAgentSettings_in_sync (ds ds' : DaemonSet) (cr : OneAgent) :
  applyOneAgentSettings ds cr = Some ds' ->
  let tpl' := dss_TemplateSpec (ds_Spec ds') in
  (exists c0', index (ps_Containers tpl') 0 = Some c0' /\
     ctr_Image c0' = Image (Spec cr) /\ ctr_Args c0' = Args (Spec cr) /\
     ctr_Env c0' = Env (Spec cr)) /\
  ps_NodeSelector tpl' = NodeSelector (Spec cr) /\
  ps_Tolerations tpl' = Tolerations (Spec cr) /\
  ds_Labels ds' = Some (getLabels cr) /\
  dss_Selector (ds_Spec ds') = Some {| ls_MatchLabels := Some (getLabels cr) |} /\
  dss_TemplateLabels (ds_Spec ds') = Some (getLabels cr) /\
  hasSpecChanged (ds_Spec ds') cr = Some false.
Proof.
  intros Happ. pose proof (applyOneAgentSettings_sync _ _ _ Happ) as Hsync.
  revert Happ. unfold applyOneAgentSettings, index.
  destruct (items (ps_Containers (dss_TemplateSpec (ds_Spec ds)))) as [|c0 cs] eqn:Hcs;
    [discriminate|].
  cbn [lookup list_lookup]. intros [= <-]. cbv zeta. cbn [ds_Spec dss_TemplateSpec ds_Labels
    dss_Selector dss_TemplateLabels ps_NodeSelector ps_Tolerations ps_Containers].
  split; [eexists; split; [reflexivity|]; done|].
  do 5 (split; [reflexivity|]).
  exact Hsync.
Qed.

(** X6: on creation the defaults always leave a first container, so the
    settings apply; the result reports no drift, runs one privileged
    container on the host namespaces, and lists the custom resource last
    among its owners, as controller that blocks deletion. *)
Theorem fresh_DaemonSet (ds : DaemonSet) (cr : OneAgent) :
  exists ds' c0,
    applyOneAgentSettings (applyOneAgentDefaults ds cr) cr = Some ds' /\
    hasSpecChanged (ds_Spec ds') cr = Some false /\
    ps_Containers (dss_TemplateSpec (ds_Spec ds')) = Some [c0] /\
    ctr_SecurityContext c0 = Some {| sc_Privileged := Some true |} /\
    (ps_HostNetwork (dss_TemplateSpec (ds_Spec ds')) = true /\
     ps_HostPID (dss_TemplateSpec (ds_Spec ds')) = true /\
     ps_HostIPC (dss_TemplateSpec (ds_Spec ds')) = true) /\
    items (ds_OwnerReferences ds') =
      (items (ds_OwnerReferences ds) ++
       [ {| or_APIVersion := oa_APIVersion cr; or_Kind := oa_Kind cr;
            or_Name := oa_Name cr; or_UID := oa_UID cr;
            or_Controller := Some true; or_BlockOwnerDeletion := Some true |} ])%list.
Proof.
  destruct (applyOneAgentDefaults_applies ds cr) as (ds' & Happ).
  pose proof (applyOneAgentSettings_sync _ _ _ Happ) as Hsync.
  cbn in Happ. injection Happ as <-.
  eexists _, _. split; [reflexivity|]. split; [exact Hsync|]. cbn. done.
Qed.

(** ** Secrets and the DaemonSet upsert *)

Section Upsert.
Context {W Client : Type} `{!Collaborators W Client}.

(** X7: reading a token makes one query, for the secret named by
    [.spec.tokens] in the namespace of the object.  It yields a value
    without error exactly when the query succeeded and the secret holds the
    key; a failed query passes its error on, an absent key (also in a
    secret without data) gives the missing-key error, and with an error the
    value is empty. *)
Theorem getSecretKey_result (cr : OneAgent) (key : string) (s : State W) :
  let r := query_Get_Secret (oa_Namespace cr) (Tokens (Spec cr)) (world s) in
  exists v err s',
    getSecretKey cr key s = Done (v, err) s' /\
    emitted s (getSecretKey cr key s)
      = [EvGetSecret (oa_Namespace cr) (Tokens (Spec cr)) r.2.1 r.2.2] /\
    (err = None <-> r.2.2 = None /\ mapget r.2.1 key = Some v) /\
    (err ≠ None -> v = EmptyString) /\
    (r.2.2 = None -> mapget r.2.1 key = None ->
     err = Some (ErrMissingKey (Tokens (Spec cr)) key)) /\
    (forall e, r.2.2 = Some e -> err = Some e).
Proof.
  cbv zeta. unfold emitted, getSecretKey, bind, call, ret. cbn [fst snd].
  destruct (query_Get_Secret _ _ _) as [w' [data [e|]]]; cbn [fst snd].
  - eexists _, _, _. split; [reflexivity|]. cbn [final log].
    rewrite drop_app_length. split; [reflexivity|].
    split; [split; [discriminate|intros [? _]; discriminate]|].
    split; [done|]. split; [discriminate|]. by intros e' [= ->].
  - destruct (mapget data key) as [v|] eqn:Hk.
    + eexists _, _, _. split; [reflexivity|]. cbn [final log].
      rewrite drop_app_length. split; [reflexivity|].
      split; [done|]. split; [done|]. split; [discriminate|]. discriminate.
    + eexists _, _, _. split; [reflexivity|]. cbn [final log].
      rewrite drop_app_length. split; [reflexivity|].
      split; [split; [discriminate|intros [_ ?]; discriminate]|].
      split; [done|]. split; [done|]. discriminate.
Qed.

(** X8: the upsert first reads the DaemonSet and then writes at most once.
    An existing DaemonSet without drift is left alone and nil is returned;
    with drift it is updated with the settings applied; one that is not
    found is created, which never panics, and what is created reports no
    drift; any other read error is returned without a write; an existing
    DaemonSet without containers makes the upsert panic before any write.
    The result of a write is the result of the upsert. *)
Theorem upsertDaemonSet_decision (oa : OneAgent) (s : State W) :
  let r := query_Get_DaemonSet (getDaemonSet oa) (world s) in
  let live := r.2.1 in
  let out := upsertDaemonSet oa s in
  exists writes,
    emitted s out = EvGetDaemonSet live r.2.2 :: writes /\
    match r.2.2 with
    | None =>
      match hasSpecChanged (ds_Spec live) oa with
      | Some false => writes = [] /\ exists s', out = Done None s'
      | Some true =>
        exists ds' e' s',
          writes = [EvUpdateDaemonSet ds' e'] /\ out = Done e' s' /\
          applyOneAgentSettings live oa = Some ds' /\
          hasSpecChanged (ds_Spec ds') oa = Some false
      | None => writes = [] /\ exists s', out = Panicked IndexOutOfRange s'
      end
    | Some e =>
      if IsNotFound e then
        exists ds' e' s',
          writes = [EvCreateDaemonSet ds' e'] /\ out = Done e' s' /\
          hasSpecChanged (ds_Spec ds') oa = Some false
      else writes = [] /\ exists s', out = Done (Some e) s'
    end.
Proof.
  cbv zeta. unfold emitted, upsertDaemonSet, bind, call, ret, throw. cbn [fst snd].
  destruct (query_Get_DaemonSet _ _) as [w' [live [e|]]]; cbn [fst snd].
  - destruct (IsNotFound e).
    + destruct (applyOneAgentDefaults_applies live oa) as (ds' & Happ).
      pose proof (applyOneAgentSettings_sync _ _ _ Happ) as Hsync.
      rewrite Happ. cbn [final log fst snd].
      eexists. rewrite <- app_assoc, drop_app_length. split; [reflexivity|].
      eexists _, _, _. split; [reflexivity|]. split; [reflexivity|]. exact Hsync.
    + cbn [final log]. eexists. rewrite drop_app_length. split; [reflexivity|].
      split; [reflexivity|]. eauto.
  - destruct (hasSpecChanged (ds_Spec live) oa) as [[|]|] eqn:Hch.
    + destruct (applyOneAgentSettings live oa) as [ds'|] eqn:Happ.
      * cbn [final log fst snd].
        eexists. rewrite <- app_assoc, drop_app_length. split; [reflexivity|].
        eexists _, _, _. split; [reflexivity|]. split; [reflexivity|].
        split; [reflexivity|]. by apply (applyOneAgentSettings_sync live).
      * exfalso. apply applyOneAgentSettings_None_iff in Happ.
        apply (hasSpecChanged_None_iff (ds_Spec live) oa) in Happ. congruence.
    + cbn [final log]. eexists. rewrite drop_app_length. split; [reflexivity|].
      split; [reflexivity|]. eauto.
    + cbn [final log]. eexists. rewrite drop_app_length. split; [reflexivity|].
      split; [reflexivity|]. eauto.
Qed.

End Upsert.

(** ** Inventory *)

Section InventoryMore.
Context {W Client : Type} `{!Collaborators W Client}.

(** X9: when the lookup of a pod succeeds, and no later pod of the pass is
    on the same node, the record of the node in the fresh map carries the
    name of the pod and the version that was looked up, whatever the
    persisted map holds for the node. *)
Theorem getPodsToRestart_records_lookup (pods1 pods2 : list Pod) (pod : Pod) (dtc : Client)
    (oneagent : OneAgent) (s : State W) (ver : string) :
  lookups dtc (pods1 ++ pod :: pods2) (world s) !! length pods1 = Some (ver, None) ->
  pod_NodeName pod ∉ pod_NodeName <$> pods2 ->
  exists doomed instances s',
    getPodsToRestart (pods1 ++ pod :: pods2) dtc oneagent s = Done (doomed, instances) s' /\
    instances !! pod_NodeName pod = Some {| PodName := pod_Name pod; Version := ver |}.
Proof.
  intros Hans Hlast.
  unfold getPodsToRestart. rewrite forPods_run. cbv zeta.
  eexists _, _, _. split; [reflexivity|].
  rewrite lookups_app in Hans |- *.
  rewrite lookup_app_r in Hans by (by rewrite lookups_length).
  rewrite lookups_length, Nat.sub_diag in Hans. simpl in Hans. injection Hans as Hans.
  rewrite zip_with_app by (by rewrite lookups_length).
  rewrite foldl_app. cbn [lookups zip_with foldl]. rewrite Hans.
  rewrite records_lookup_other by done.
  rewrite lookup_insert_eq. reflexivity.
Qed.

(** X10: the pass over the pods asks for the version once per pod, in the
    order of the pods and for the host address of the pod, and calls
    nothing else; the candidates are a sublist of the pods; and without
    pods the result is no candidate and an empty map. *)
Theorem getPodsToRestart_lookups (pods : list Pod) (dtc : Client) (oneagent : OneAgent)
    (s : State W) :
  exists doomed instances s',
    getPodsToRestart pods dtc oneagent s = Done (doomed, instances) s' /\
    emitted s (getPodsToRestart pods dtc oneagent s)
      = zip_with (fun pod a => EvGetVersionForIp (pod_HostIP pod) a.1 a.2)
                 pods (lookups dtc pods (world s)) /\
    length (emitted s (getPodsToRestart pods dtc oneagent s)) = length pods /\
    doomed `sublist_of` pods /\
    (pods = [] -> doomed = [] /\ instances = ∅).
Proof.
  unfold emitted, getPodsToRestart. rewrite forPods_run. cbv zeta. cbn [final log].
  eexists _, _, _. split; [reflexivity|]. rewrite drop_app_length.
  split; [reflexivity|]. split; [|split].
  - unfold lookupEvents. rewrite length_zip_with, lookups_length. lia.
  - cbn [app].
    transitivity ((zip pods (lookups dtc pods (world s))).*1).
    + apply fmap_sublist, sublist_filter.
    + rewrite fst_zip by (rewrite lookups_length; lia). reflexivity.
  - by intros ->.
Qed.

End InventoryMore.

(** ** Rolling restart *)

Lemma pollEvent_no_deletion evs : Forall pollEvent evs -> deletions evs = [].
Proof.
  induction 1 as [|x l Hx _ IH]; [done|]. destruct x; try contradiction; exact IH.
Qed.

Lemma pollEvent_not_delete evs p e : Forall pollEvent evs -> EvDeletePod p e ∉ evs.
Proof.
  intros H Hin. apply (proj1 (Forall_forall _ _) H) in Hin. exact Hin.
Qed.

Ltac poll_events :=
  simpl; repeat first [exact I | assumption | constructor | apply Forall_app].

Section RestartMore.
Context {W Client : Type} `{!Collaborators W Client}.

(** The poll loop emits sleeps and list queries only, whatever budget and
    fuel. *)
Lemma waitReady_polls cr listOps : forall fuel splay status s,
  exists evs, Forall pollEvent evs /\
    log (final (waitReady fuel cr listOps splay status s)) = (log s ++ evs)%list.
Proof.
  induction fuel as [|fuel IH]; intros splay status s.
  - exists []. rewrite app_nil_r. by split.
  - cbn [waitReady]. destruct (WaitReadySeconds (Spec cr)) as [budget|].
    + case_bool_decide.
      * unfold bind at 1. unfold call at 1. cbn [fst snd].
        unfold bind at 1. unfold call at 1. cbn [fst snd world log].
        set (s1 := mkState _ _).
        assert (Hcont : forall sp st,
          exists evs, Forall pollEvent evs /\
            log (final (waitReady fuel cr listOps sp st s1)) = (log s ++ evs)%list).
        { intros sp st. destruct (IH sp st s1) as (evs & Hev & Hl).
          rewrite Hl. subst s1. eexists; split; cycle 1;
            [cbn [log]; rewrite <- ?app_assoc; reflexivity|poll_events]. }
        destruct (query_List _ _ _) as [w' [pList [e|]]] eqn:HL; cbn [fst snd] in *.
        -- apply Hcont.
        -- destruct pList as [|p [|p' pl]]; try apply Hcont.
           destruct (getPodReadyState p); [|apply Hcont].
           unfold ret. subst s1. eexists; split; cycle 1;
             [cbn [final log]; rewrite <- ?app_assoc; reflexivity|poll_events].
      * exists []. rewrite app_nil_r. by split.
    + exists []. rewrite app_nil_r. by split.
Qed.

(** What a pass over the candidates deleted, and how it ended. *)
Lemma deletePods_shape fuel cr pods : forall s,
  exists evs,
    log (final (deletePods fuel cr pods s)) = (log s ++ evs)%list /\
    deletions evs `prefix_of` pods /\
    (forall s', deletePods fuel cr pods s = Done None s' -> deletions evs = pods) /\
    (forall p e, EvDeletePod p (Some e) ∈ evs ->
       exists s' evs', deletePods fuel cr pods s = Done (Some e) s' /\
                       evs = (evs' ++ [EvDeletePod p (Some e)])%list).
Proof.
  induction pods as [|pod rest IH]; intros s.
  - exists []. rewrite app_nil_r. split; [done|]. split; [done|]. split; [done|].
    intros p e Hin. by apply elem_of_nil in Hin.
  - remember (deletePods fuel cr (pod :: rest) s) as out eqn:Hout.
    cbn [deletePods] in Hout. unfold bind at 1 in Hout. unfold call at 1 in Hout.
    cbn [fst snd] in Hout.
    set (s1 := mkState _ _) in Hout.
    destruct (action_Delete pod (world s)) as [w1 [e|]] eqn:Hdel; cbn [snd] in *.
    + unfold ret in Hout. subst out. exists [EvDeletePod pod (Some e)].
      subst s1. cbn [final log].
      split; [done|]. split; [cbn; by apply prefix_cons, prefix_nil|].
      split; [intros s' Hd; discriminate Hd|].
      intros p e' Hin. apply list_elem_of_singleton in Hin. injection Hin as -> ->.
      eexists _, []. split; reflexivity.
    + unfold bind at 1 in Hout.
      destruct (waitReady_polls cr
                  {| lo_FieldSelector := readyFieldSelector pod;
                     lo_LabelSelector := getLabels cr |} fuel 0 None s1)
        as (evs & Hev & Hl).
      pose proof (pollEvent_no_deletion _ Hev) as Hnd.
      destruct (waitReady _ _ _ _ _ _) as [[e|] s2|p s2|s2]; cbn [final] in Hl.
      2: { destruct (IH s2) as (evs' & Hl' & Hpre & Hall & Hfail). subst out.
           exists (EvDeletePod pod None :: evs ++ evs')%list.
           split; [rewrite Hl', Hl; subst s1; cbn [log]; by rewrite <- !app_assoc|].
           split; [cbn; rewrite deletions_app, Hnd; by apply prefix_cons|].
           split.
           - intros s' Hdone. cbn. rewrite deletions_app, Hnd. cbn. f_equal. eauto.
           - intros p e Hin. apply elem_of_cons in Hin as [Hin|Hin]; [discriminate|].
             apply elem_of_app in Hin as [Hin|Hin];
               [by apply pollEvent_not_delete in Hin|].
             destruct (Hfail p e Hin) as (s' & evs'' & Hout & ->).
             exists s', (EvDeletePod pod None :: evs ++ evs'')%list.
             split; [exact Hout|]. cbn. by rewrite <- app_assoc. }
      all: unfold ret in Hout; subst out;
        exists (EvDeletePod pod None :: evs)%list; cbn [final];
        (split; [rewrite Hl; subst s1; cbn [log]; by rewrite <- !app_assoc|]);
        (split; [change (deletions (EvDeletePod pod None :: evs))
                   with (pod :: deletions evs); rewrite Hnd;
                 by apply prefix_cons, prefix_nil|]);
        (split; [intros s' Hd; discriminate Hd|]);
        intros p' e' Hin; apply elem_of_cons in Hin as [Hin|Hin]; [discriminate|];
        by apply pollEvent_not_delete in Hin.
Qed.

(** X11: whatever the budget and the answers of the cluster, the pass
    deletes a prefix of the candidates, in the order of the list, each at
    most once; when it returns nil every candidate was deleted; and for no
    candidate it does nothing. *)
Theorem deletePods_prefix (fuel : nat) (cr : OneAgent) (pods : list Pod) (s : State W) :
  deletions (emitted s (deletePods fuel cr pods s)) `prefix_of` pods /\
  (forall s', deletePods fuel cr pods s = Done None s' ->
     deletions (emitted s (deletePods fuel cr pods s)) = pods) /\
  (pods = [] -> deletePods fuel cr pods s = Done None s).
Proof.
  destruct (deletePods_shape fuel cr pods s) as (evs & Hl & Hpre & Hall & _).
  rewrite (emitted_app _ _ _ Hl). split; [exact Hpre|]. split; [exact Hall|].
  by intros ->.
Qed.

(** X12: a deletion that fails ends the pass: its error is returned, and
    the failed deletion is the last event, so no poll and no deletion
    follows it. *)
Theorem deletePods_delete_fails (fuel : nat) (cr : OneAgent) (pods : list Pod)
    (s : State W) (p : Pod) (e : error) :
  EvDeletePod p (Some e) ∈ emitted s (deletePods fuel cr pods s) ->
  exists s' evs,
    deletePods fuel cr pods s = Done (Some e) s' /\
    emitted s (deletePods fuel cr pods s) = (evs ++ [EvDeletePod p (Some e)])%list.
Proof.
  destruct (deletePods_shape fuel cr pods s) as (evs & Hl & _ & _ & Hfail).
  rewrite (emitted_app _ _ _ Hl). intros Hin.
  destruct (Hfail p e Hin) as (s' & evs' & Hout & ->). eauto.
Qed.

(** X13: the wait budget is read through its pointer without a nil test:
    with candidates and no budget set, the pass panics right after the
    first deletion. *)
Theorem deletePods_no_budget (fuel : nat) (cr : OneAgent) (pod : Pod) (rest : list Pod)
    (s : State W) :
  WaitReadySeconds (Spec cr) = None -> (0 < fuel)%nat ->
  (action_Delete pod (world s)).2 = None ->
  exists s',
    deletePods fuel cr (pod :: rest) s = Panicked NilDereference s' /\
    emitted s (deletePods fuel cr (pod :: rest) s) = [EvDeletePod pod None].
Proof.
  intros Hnil Hfuel Hdel. unfold emitted. cbn [deletePods].
  unfold bind at 1 3. unfold call at 1 2. cbn [fst snd]. rewrite Hdel.
  destruct fuel as [|fuel]; [lia|]. unfold bind. cbn [waitReady]. rewrite Hnil.
  unfold throw. eexists. split; [reflexivity|]. cbn [final log].
  by rewrite drop_app_length.
Qed.

End RestartMore.

Section RestartScenarios.
Context {W Client : Type} `{!Collaborators W Client}.

(** X14: when every deletion succeeds and every first poll finds exactly
    one ready pod, the pass deletes every candidate, in order, with one
    tick each, and returns nil. *)
Theorem deletePods_confirmed (fuel : nat) (cr : OneAgent) (pods : list Pod) (B : Z)
    (s : State W) :
  WaitReadySeconds (Spec cr) = Some B -> 0 < B -> (0 < fuel)%nat ->
  (forall pod w, (action_Delete pod w).2 = None) ->
  (forall pod w, exists p,
     (query_List (oa_Namespace cr) (readyListOptions cr pod) w).2 = ([p], None) /\
     getPodReadyState p = true) ->
  exists s',
    deletePods fuel cr pods s = Done None s' /\
    deletions (emitted s (deletePods fuel cr pods s)) = pods /\
    pollTicks (emitted s (deletePods fuel cr pods s)) = length pods /\
    length (confirmations (emitted s (deletePods fuel cr pods s))) = length pods.
Proof.
  intros HB Hpos Hfuel Hdel Hpoll.
  enough (Hgen : forall s, exists s' evs,
            deletePods fuel cr pods s = Done None s' /\
            log s' = (log s ++ evs)%list /\
            deletions evs = pods /\ pollTicks evs = length pods /\
            length (confirmations evs) = length pods).
  { destruct (Hgen s) as (s' & evs & Hout & Hl & H1 & H2 & H3).
    exists s'. rewrite Hout. rewrite (emitted_app s (Done None s') evs Hl). done. }
  clear s. induction pods as [|pod rest IH]; intros s.
  - exists s, []. rewrite app_nil_r. done.
  - cbn [deletePods]. unfold bind at 1. unfold call at 1. cbn [fst snd].
    rewrite Hdel. unfold bind at 1.
    destruct fuel as [|fuel']; [lia|]. cbn [waitReady]. rewrite HB.
    rewrite bool_decide_eq_true_2 by done.
    unfold bind at 1. unfold call at 1. cbn [fst snd].
    unfold bind at 1. unfold call at 1. cbn [fst snd world log].
    fold (readyListOptions cr pod).
    destruct (Hpoll pod (time_Sleep splayTimeSeconds (action_Delete pod (world s)).1))
      as (p & Hq & Hready).
    rewrite Hq. cbn [fst snd]. rewrite Hready. unfold ret at 1.
    match goal with |- context [deletePods (S fuel') cr rest ?st] =>
      destruct (IH st) as (s' & evs & Hout & Hl & H1 & H2 & H3) end.
    exists s', ([EvDeletePod pod None; EvSleep splayTimeSeconds;
                 EvListPods (oa_Namespace cr) (readyListOptions cr pod) [p] None]
                ++ evs)%list.
    split; [exact Hout|]. split; [rewrite Hl; cbn [log]; by rewrite <- !app_assoc|].
    rewrite deletions_app, pollTicks_app.
    split; [cbn; by rewrite H1|]. split; [cbn; by rewrite H2|].
    unfold confirmations in *. rewrite omap_app, length_app, H3. cbn.
    by rewrite Hready.
Qed.

(** A poll in which no tick can confirm (each query fails or finds more
    than one pod) runs through its budget and ends with an error. *)
Lemma waitReady_never_confirmed cr listOps B :
  WaitReadySeconds (Spec cr) = Some B -> B <= 65530 ->
  (forall w, (query_List (oa_Namespace cr) listOps w).2.2 ≠ None \/
             (1 < length (query_List (oa_Namespace cr) listOps w).2.1)%nat) ->
  forall n fuel splay status s,
    ticksLeft B splay = n -> (n < fuel)%nat -> 0 <= splay -> splay mod 10 = 0 ->
    exists status' s' evs,
      waitReady fuel cr listOps splay status s = Done status' s' /\
      log s' = (log s ++ evs)%list /\ Forall pollEvent evs /\
      pollTicks evs = n /\
      (status ≠ None \/ (0 < n)%nat -> status' ≠ None).
Proof.
  intros HB Hmax Hbad. induction n as [|n IH]; intros fuel splay status s Hn Hfuel H0 Hm.
  - destruct fuel as [|fuel]; [lia|]. cbn [waitReady]. rewrite HB.
    rewrite bool_decide_eq_false_2.
    + exists status, s, []. rewrite app_nil_r. repeat split; try done.
      intros [?|?]; [done|lia].
    + intros Hlt. rewrite ticksLeft_step in Hn by done. lia.
  - destruct fuel as [|fuel]; [lia|]. cbn [waitReady]. rewrite HB.
    assert (Hlt : splay < B).
    { destruct (decide (splay < B)); [done|]. rewrite ticksLeft_done in Hn by lia. lia. }
    rewrite bool_decide_eq_true_2 by done.
    assert (Hnext : uint16 (splay + splayTimeSeconds) = splay + 10).
    { unfold uint16, splayTimeSeconds. apply Z.mod_small.
      assert (splay <= 65520); [|lia].
      apply Z.mod_divide in Hm; [|lia]. destruct Hm as [k ->]. lia. }
    rewrite Hnext.
    assert (Hm' : (splay + 10) mod 10 = 0).
    { rewrite <- Z.add_mod_idemp_l, Hm by lia. reflexivity. }
    rewrite ticksLeft_step in Hn by done. injection Hn as Hn.
    unfold bind at 1. unfold call at 1. cbn [fst snd].
    unfold bind at 1. unfold call at 1. cbn [fst snd world log].
    set (s1 := mkState _ _).
    assert (Hcont : forall st, st ≠ None ->
      exists status' s' evs,
        waitReady fuel cr listOps (splay + 10) st s1 = Done status' s' /\
        log s' = (log s ++ evs)%list /\ Forall pollEvent evs /\
        pollTicks evs = S n /\ (status ≠ None \/ (0 < S n)%nat -> status' ≠ None)).
    { intros st Hst.
      destruct (IH fuel (splay + 10) st s1) as (st' & s' & evs & Hr & Hl & Hev & Ht & Hs);
        [done|lia|lia|done|].
      eexists st', s', (_ :: _ :: evs)%list.
      split; [exact Hr|]. split; [rewrite Hl; subst s1; cbn [log]; by rewrite <- !app_assoc|].
      split; [constructor; [exact I|]; constructor; [exact I|exact Hev]|].
      split; [cbn; f_equal; exact Ht|].
      intros _. apply Hs. by left. }
    pose proof (Hbad (time_Sleep splayTimeSeconds (world s))) as Hb.
    destruct (query_List (oa_Namespace cr) listOps (time_Sleep splayTimeSeconds (world s)))
      as [w' [pList [e|]]] eqn:HL; cbn [fst snd] in *.
    + by apply Hcont.
    + destruct Hb as [Hb|Hb]; [done|].
      destruct pList as [|p [|p' pl]]; cbn in Hb; try lia.
      rewrite bool_decide_eq_true_2 by (cbn; lia). by apply Hcont.
Qed.

(** X15: when no tick of the poll for a deleted pod can confirm a
    replacement, because each query fails or finds more than one pod, the
    pass uses up the budget, [ceil(B/10)] ticks, returns an error and
    deletes no further candidate. *)
Theorem deletePods_never_confirmed (fuel : nat) (cr : OneAgent) (pod : Pod)
    (rest : list Pod) (B : Z) (s : State W) :
  WaitReadySeconds (Spec cr) = Some B -> 0 < B <= 65530 ->
  (Z.to_nat ((B + 9) / splayTimeSeconds) < fuel)%nat ->
  (action_Delete pod (world s)).2 = None ->
  (forall w,
     (query_List (oa_Namespace cr) (readyListOptions cr pod) w).2.2 ≠ None \/
     (1 < length (query_List (oa_Namespace cr) (readyListOptions cr pod) w).2.1)%nat) ->
  exists e s',
    deletePods fuel cr (pod :: rest) s = Done (Some e) s' /\
    deletions (emitted s (deletePods fuel cr (pod :: rest) s)) = [pod] /\
    pollTicks (emitted s (deletePods fuel cr (pod :: rest) s))
      = Z.to_nat ((B + 9) / splayTimeSeconds).
Proof.
  intros HB HBr Hfuel Hdel Hbad. unfold splayTimeSeconds in *.
  assert (Ht0 : ticksLeft B 0 = Z.to_nat ((B + 9) / 10)).
  { unfold ticksLeft. do 2 f_equal. lia. }
  assert (Hpos : (0 < Z.to_nat ((B + 9) / 10))%nat).
  { assert (1 <= (B + 9) / 10) by (apply Z.div_le_lower_bound; lia). lia. }
  enough (Hgen : exists e s' evs,
            deletePods fuel cr (pod :: rest) s = Done (Some e) s' /\
            log s' = (log s ++ evs)%list /\ deletions evs = [pod] /\
            pollTicks evs = Z.to_nat ((B + 9) / 10)).
  { destruct Hgen as (e & s' & evs & Hout & Hl & H1 & H2).
    exists e, s'. rewrite Hout. rewrite (emitted_app s (Done (Some e) s') evs Hl). done. }
  cbn [deletePods]. unfold bind at 1. unfold call at 1. cbn [fst snd].
  rewrite Hdel. unfold bind at 1. fold (readyListOptions cr pod).
  match goal with |- context [waitReady fuel cr _ 0 None ?st] =>
    destruct (waitReady_never_confirmed cr (readyListOptions cr pod) B HB (proj2 HBr) Hbad
                _ fuel 0 None st Ht0 Hfuel) as (st' & s' & evs & Hr & Hl & Hev & Ht & Hs);
      [lia|reflexivity|] end.
  rewrite Hr. destruct st' as [e|]; [|exfalso; apply Hs; [by right|done]].
  unfold ret. exists e, s', (EvDeletePod pod None :: evs)%list.
  split; [reflexivity|]. split; [rewrite Hl; cbn [log]; by rewrite <- app_assoc|].
  split.
  - change (deletions (EvDeletePod pod None :: evs)) with (pod :: deletions evs).
    by rewrite (pollEvent_no_deletion _ Hev).
  - exact Ht.
Qed.

End RestartScenarios.

(** ** Order of the pass *)

Lemma preludeEvent_no_deletion evs : Forall preludeEvent evs -> deletions evs = [].
Proof.
  induction 1 as [|x l Hx _ IH]; [done|]. destruct x; try contradiction; exact IH.
Qed.

Lemma lookupEvent_no_deletion evs : Forall lookupEvent evs -> deletions evs = [].
Proof.
  induction 1 as [|x l Hx _ IH]; [done|]. destruct x; try contradiction; exact IH.
Qed.

Section PassOrder.
Context {W Client : Type} `{!Collaborators W Client}.

(** X16: a pass writes the status at most once, and the write is its last
    call: no deletion, poll or query follows it. *)
Theorem HandleOneAgent_write_last (fuel : nat) (oa : OneAgent) (s : State W)
    (cr : OneAgent) (err : option error) :
  EvUpdateOneAgent cr err ∈ emitted s (HandleOneAgent fuel oa s) ->
  exists evs,
    emitted s (HandleOneAgent fuel oa s) = (evs ++ [EvUpdateOneAgent cr err])%list /\
    (forall cr' err', EvUpdateOneAgent cr' err' ∉ evs) /\
    deletions evs = deletions (emitted s (HandleOneAgent fuel oa s)).
Proof.
  intros Hin.
  destruct (HandleOneAgent_trace fuel oa s) as (pre & Hpre & Hshape).
  destruct Hshape as [Hl|[(v & e' & o & s' & Hout & Hst & Hl)|
                          (d & ns & ops & pods & lerr & rest & Hl & _ & _ & Hrest)]].
  - apply emitted_app in Hl. rewrite Hl in Hin. locate Hin.
  - rewrite Hout in *.
    rewrite (emitted_app s (Done (o, @None error) s') _ Hl) in Hin. locate Hin.
  - apply emitted_app in Hl. rewrite Hl in *.
    destruct lerr as [el|].
    + subst rest. locate Hin.
    + destruct Hrest as (lk & rt & upd & -> & Hlk & Hret & Hupd & _).
      destruct Hupd as [->|(o' & e' & -> & _)]; locate Hin.
      injection Hin as -> ->.
      exists (pre ++ EvGetVersionForLatest d None :: EvListPods ns ops pods None
                  :: lk ++ rt)%list.
      split; [|split].
      * rewrite <- !app_assoc. cbn. by rewrite <- !app_assoc.
      * intros cr' err' Hu. locate Hu.
      * rewrite !deletions_app. cbn. rewrite !deletions_app. cbn.
        by rewrite !app_nil_r.
Qed.

(** X17: a pass deletes pods only after the query for the latest version
    and the list of the live pods both succeeded: nothing before them is a
    deletion. *)
Theorem HandleOneAgent_deletes_after_queries (fuel : nat) (oa : OneAgent) (s : State W) :
  deletions (emitted s (HandleOneAgent fuel oa s)) ≠ [] ->
  exists evs1 desired ns ops pods evs2,
    emitted s (HandleOneAgent fuel oa s)
      = (evs1 ++ EvGetVersionForLatest desired None
              :: EvListPods ns ops pods None :: evs2)%list /\
    lo_FieldSelector ops = EmptyString /\
    deletions evs1 = [].
Proof.
  intros Hdel.
  destruct (HandleOneAgent_trace fuel oa s) as (pre & Hpre & Hshape).
  pose proof (preludeEvent_no_deletion _ Hpre) as Hnd.
  destruct Hshape as [Hl|[(v & e' & o & s' & Hout & Hst & Hl)|
                          (d & ns & ops & pods & lerr & rest & Hl & Hsel & _ & Hrest)]].
  - apply emitted_app in Hl. rewrite Hl in Hdel. contradiction.
  - rewrite Hout in *.
    rewrite (emitted_app s (Done (o, @None error) s') _ Hl) in Hdel.
    rewrite deletions_app, Hnd in Hdel. by cbn in Hdel.
  - apply emitted_app in Hl. rewrite Hl in *.
    destruct lerr as [el|].
    + subst rest. rewrite deletions_app, Hnd in Hdel. by cbn in Hdel.
    + exists pre, d, ns, ops, pods, rest. done.
Qed.

(** X18: a token that cannot be read ends the pass with the error of the
    read, after one or two secret queries and nothing else; the object
    returned carries the defaulted [.spec.tokens]. *)
Theorem HandleOneAgent_token_missing (fuel : nat) (oa : OneAgent) (s : State W) :
  let oa1 := (defaultTokens oa false).1 in
  (forall v e s1,
     getSecretKey oa1 "paasToken" s = Done (v, Some e) s1 ->
     HandleOneAgent fuel oa s = Done (oa1, Some e) s1 /\
     length (emitted s (HandleOneAgent fuel oa s)) = 1%nat) /\
  (forall p v e s1 s2,
     getSecretKey oa1 "paasToken" s = Done (p, None) s1 ->
     getSecretKey oa1 "apiToken" s1 = Done (v, Some e) s2 ->
     HandleOneAgent fuel oa s = Done (oa1, Some e) s2 /\
     length (emitted s (HandleOneAgent fuel oa s)) = 2%nat) /\
  (Tokens (Spec oa) = EmptyString -> Tokens (Spec oa1) = oa_Name oa) /\
  (Tokens (Spec oa) ≠ EmptyString -> oa1 = oa).
Proof.
  cbv zeta.
  assert (Hrun1 : forall v e s1,
    getSecretKey (defaultTokens oa false).1 "paasToken" s = Done (v, Some e) s1 ->
    HandleOneAgent fuel oa s = Done ((defaultTokens oa false).1, Some e) s1).
  { intros v e s1 H1. unfold HandleOneAgent.
    destruct (defaultTokens oa false) as [oa1 u1]. cbn [fst] in *.
    unfold bind at 1. by rewrite H1. }
  assert (Hrun2 : forall p v e s1 s2,
    getSecretKey (defaultTokens oa false).1 "paasToken" s = Done (p, None) s1 ->
    getSecretKey (defaultTokens oa false).1 "apiToken" s1 = Done (v, Some e) s2 ->
    HandleOneAgent fuel oa s = Done ((defaultTokens oa false).1, Some e) s2).
  { intros p v e s1 s2 H1 H2. unfold HandleOneAgent.
    destruct (defaultTokens oa false) as [oa1 u1]. cbn [fst] in *.
    unfold bind at 1. rewrite H1. unfold bind at 1. by rewrite H2. }
  split; [|split; [|split]].
  - intros v e s1 H1. rewrite (Hrun1 v e s1 H1). split; [reflexivity|].
    destruct (getSecretKey_run (defaultTokens oa false).1 "paasToken" s)
      as (v' & e' & d & x & Hr).
    rewrite Hr in H1. injection H1 as _ _ <-.
    unfold emitted. cbn [final log]. by rewrite drop_app_length.
  - intros p v e s1 s2 H1 H2. rewrite (Hrun2 p v e s1 s2 H1 H2). split; [reflexivity|].
    destruct (getSecretKey_run (defaultTokens oa false).1 "paasToken" s)
      as (v1 & e1 & d1 & x1 & Hr1).
    rewrite Hr1 in H1. injection H1 as _ _ <-.
    match type of H2 with getSecretKey _ _ ?st = _ =>
      destruct (getSecretKey_run (defaultTokens oa false).1 "apiToken" st)
        as (v2 & e2 & d2 & x2 & Hr2) end.
    rewrite Hr2 in H2. injection H2 as _ _ <-.
    unfold emitted. cbn [final log]. by rewrite <- app_assoc, drop_app_length.
  - intros Ht. unfold defaultTokens. by rewrite bool_decide_eq_true_2.
  - intros Ht. unfold defaultTokens. by rewrite bool_decide_eq_false_2.
Qed.

End PassOrder.

(** ** The steady state *)

Section Steady.
Context {W Client : Type} `{!Collaborators W Client}.

Lemma forPods_steady dtc oneagent pods :
  (forall ip w, (GetVersionForIp dtc ip w).2 = (st_Version (Status oneagent), None)) ->
  forall instances s,
  exists s' evs,
    forPods dtc oneagent pods ([], instances) s =
      Done ([], foldl (fun m pod => <[pod_NodeName pod :=
                         {| PodName := pod_Name pod;
                            Version := st_Version (Status oneagent) |}]> m)
                      instances pods) s' /\
    log s' = (log s ++ evs)%list /\ Forall readOnlyEvent evs.
Proof.
  intros Hver. induction pods as [|pod rest IH]; intros instances s.
  - exists s, []. rewrite app_nil_r. done.
  - cbn [forPods foldl]. unfold bind at 1. unfold processPod, bind, call, ret.
    cbn [fst snd]. rewrite Hver. cbn [fst snd].
    rewrite bool_decide_eq_false_2 by (intros Hn; by apply Hn).
    match goal with |- context [forPods dtc oneagent rest (_, ?m) ?st] =>
      destruct (IH m st) as (s' & evs & Hrun & Hl & Hev) end.
    exists s', (EvGetVersionForIp (pod_HostIP pod) (st_Version (Status oneagent)) None
                :: evs).
    split; [exact Hrun|]. split; [rewrite Hl; cbn [log]; by rewrite <- app_assoc|].
    by constructor.
Qed.

(** X19: a pass in the steady state is a fixed point.  When tokens are
    set and readable, the environment starts with the token variable, the
    DaemonSet exists without drift, the latest version is the target of the
    status, the listed pods all run it and the status records exactly
    them, then the pass returns nil with the object unchanged, and every
    call it made was a read: no DaemonSet write, no deletion, no status
    write. *)
Theorem HandleOneAgent_steady (fuel : nat) (oa : OneAgent) (s : State W)
    (data : gmap string string) (paas api : string) (e0 : EnvVar) (live : DaemonSet)
    (dtc : Client) (pods : list Pod) :
  Tokens (Spec oa) ≠ EmptyString ->
  index (Env (Spec oa)) 0 = Some e0 -> ev_Name e0 = "ONEAGENT_INSTALLER_TOKEN" ->
  (forall ns name w, (query_Get_Secret ns name w).2 = (Some data, None)) ->
  data !! "paasToken" = Some paas -> data !! "apiToken" = Some api ->
  (forall ds w, (query_Get_DaemonSet ds w).2 = (live, None)) ->
  hasSpecChanged (ds_Spec live) oa = Some false ->
  (forall url a p w, (NewClient url a p w).2 = (Some dtc, None)) ->
  (forall w, (GetVersionForLatest dtc w).2 = (st_Version (Status oa), None)) ->
  (forall w, (query_List (oa_Namespace oa)
                {| lo_FieldSelector := EmptyString; lo_LabelSelector := getLabels oa |}
                w).2 = (pods, None)) ->
  (forall ip w, (GetVersionForIp dtc ip w).2 = (st_Version (Status oa), None)) ->
  st_Items (Status oa) = Some (itemsAt (st_Version (Status oa)) pods) ->
  exists s',
    HandleOneAgent fuel oa s = Done (oa, None) s' /\
    Forall readOnlyEvent (emitted s (HandleOneAgent fuel oa s)).
Proof.
  intros Htok He0 Hname Hsec Hpaas Hapi Hget Hsync Hnew Hlatest Hlist Hver Hitems.
  enough (Hgen : exists s' evs,
            HandleOneAgent fuel oa s = Done (oa, None) s' /\
            log s' = (log s ++ evs)%list /\ Forall readOnlyEvent evs).
  { destruct Hgen as (s' & evs & Hout & Hl & Hev). exists s'. rewrite Hout.
    split; [reflexivity|].
    by rewrite (emitted_app s (Done (oa, @None error) s') evs Hl). }
  unfold HandleOneAgent, defaultTokens.
  rewrite bool_decide_eq_false_2 by done.
  unfold bind at 1. unfold getSecretKey at 1. unfold bind at 1. unfold call at 1.
  rewrite Hsec. cbn [fst snd mapget]. rewrite Hpaas. unfold ret at 1.
  unfold bind at 1. unfold getSecretKey at 1. unfold bind at 1. unfold call at 1.
  cbn [world]. rewrite Hsec. cbn [fst snd mapget]. rewrite Hapi. unfold ret at 1.
  unfold injectInstallerToken. rewrite He0.
  rewrite bool_decide_eq_false_2 by (intros Hn; by apply Hn).
  assert (Hoa : with_Spec (Spec oa) oa = oa) by (by destruct oa). rewrite Hoa.
  unfold bind at 1. unfold upsertDaemonSet at 1. unfold bind at 1. unfold call at 1.
  cbn [world]. rewrite Hget. cbn [fst snd]. rewrite Hsync. unfold ret at 1.
  unfold bind at 1. unfold call at 1. cbn [world]. rewrite Hnew. cbn [fst snd].
  unfold bind at 1. unfold call at 1. cbn [world]. rewrite Hlatest. cbn [fst snd].
  unfold applyDesiredVersion.
  rewrite (bool_decide_eq_false_2 (st_Version (Status oa) ≠ st_Version (Status oa)))
    by (intros Hn; by apply Hn).
  rewrite andb_false_r.
  unfold bind at 1. unfold call at 1. cbn [world]. rewrite Hlist. cbn [fst snd].
  unfold bind at 1. unfold getPodsToRestart.
  match goal with |- context [forPods dtc oa pods ([], ∅) ?st] =>
    destruct (forPods_steady dtc oa pods Hver ∅ st) as (s6 & evs & Hrun & Hl & Hev) end.
  rewrite Hrun. fold (itemsAt (st_Version (Status oa)) pods).
  unfold applyInstances. rewrite Hitems.
  rewrite bool_decide_eq_true_2 by reflexivity. cbn [negb deletePods].
  unfold bind at 1. unfold ret.
  eexists _, _. split; [reflexivity|].
  split; [rewrite Hl; cbn [log]; rewrite <- !app_assoc; reflexivity|].
  cbn. repeat (constructor; [exact I|]). exact Hev.
Qed.

End Steady.

(** ** Concrete instances of the further properties *)

Lemma copyDaemonSetSpecToOneAgentSpec_keeps_witness :
  exists spec',
    copyDaemonSetSpecToOneAgentSpec (ex_live None) (ex_spec 15 ex_env) = Some spec' /\
    Tokens spec' = "oneagent" /\
    copyDaemonSetSpecToOneAgentSpec (ex_live None) spec' = Some spec'.
Proof.
  destruct (copyDaemonSetSpecToOneAgentSpec (ex_live None) (ex_spec 15 ex_env))
    as [spec'|] eqn:Hc; [|discriminate Hc].
  destruct (copyDaemonSetSpecToOneAgentSpec_keeps _ _ _ Hc) as (_ & _ & Ht & _ & Hidem).
  exists spec'. split; [reflexivity|]. split; [exact Ht|exact Hidem].
Defined.

Lemma applyOneAgentSettings_structure_witness :
  exists ds',
    applyOneAgentSettings ex_daemonset_bare (ex_oneagent 15 ex_env) = Some ds' /\
    ps_ServiceAccountName (dss_TemplateSpec (ds_Spec ds')) = "dynatrace-oneagent" /\
    ds_OwnerReferences ds' = ds_OwnerReferences ex_daemonset_bare.
Proof.
  destruct (applyOneAgentSettings ex_daemonset_bare (ex_oneagent 15 ex_env))
    as [ds'|] eqn:Ha; [|discriminate Ha].
  destruct (applyOneAgentSettings_structure _ _ _ Ha)
    as ((_ & _ & _ & _ & Hown) & (_ & _ & _ & _ & Hsa) & _).
  exists ds'. split; [reflexivity|]. split; [exact Hsa|exact Hown].
Defined.

Lemma applyOneAgentSettings_in_sync_witness :
  exists ds',
    applyOneAgentSettings ex_daemonset_bare (ex_oneagent 15 ex_env) = Some ds' /\
    hasSpecChanged (ds_Spec ds') (ex_oneagent 15 ex_env) = Some false.
Proof.
  destruct (applyOneAgentSettings ex_daemonset_bare (ex_oneagent 15 ex_env))
    as [ds'|] eqn:Ha; [|discriminate Ha].
  destruct (applyOneAgentSettings_in_sync _ _ _ Ha) as (_ & _ & _ & _ & _ & _ & Hsync).
  exists ds'. split; [reflexivity|exact Hsync].
Defined.

Lemma getPodsToRestart_records_lookup_witness :
  exists doomed instances s',
    @getPodsToRestart _ _ (scripted ex_script) ([] ++ ex_pod1 :: [ex_pod2]) tt
      (ex_oneagent 15 ex_env) start = Done (doomed, instances) s' /\
    instances !! "n1" = Some {| PodName := "oneagent-x1"; Version := "1.1.0" |}.
Proof.
  apply (@getPodsToRestart_records_lookup _ _ (scripted ex_script) [] [ex_pod2] ex_pod1 tt
           (ex_oneagent 15 ex_env) start "1.1.0").
  - reflexivity.
  - vm_compute. intros H. inversion H as [|? ? ? H']; subst. inversion H'.
Defined.

Lemma deletePods_delete_fails_witness :
  exists s',
    @deletePods _ _ (scripted (ex_script_restart (fun _ => Some (ApiError false "forbidden"))
                                                 (fun _ => ([], None))))
      5 (ex_oneagent 15 ex_env) [ex_pod1; ex_pod2] start
      = Done (Some (ApiError false "forbidden")) s'.
Proof.
  destruct (@deletePods_delete_fails _ _
              (scripted (ex_script_restart (fun _ => Some (ApiError false "forbidden"))
                                           (fun _ => ([], None))))
              5 (ex_oneagent 15 ex_env) [ex_pod1; ex_pod2] start ex_pod1
              (ApiError false "forbidden")) as (s' & evs & Hout & Hem).
  - vm_compute. repeat constructor.
  - exists s'. exact Hout.
Defined.

Lemma deletePods_no_budget_witness :
  exists s',
    @deletePods _ _ (scripted ex_script) 5 ex_oneagent_no_budget [ex_pod1; ex_pod2] start
      = Panicked NilDereference s'.
Proof.
  destruct (@deletePods_no_budget _ _ (scripted ex_script) 5 ex_oneagent_no_budget
              ex_pod1 [ex_pod2] start) as (s' & Hout & _).
  - reflexivity.
  - lia.
  - reflexivity.
  - exists s'. exact Hout.
Defined.

Lemma deletePods_confirmed_witness :
  exists s',
    @deletePods _ _ (scripted (ex_script_restart (fun _ => None)
                                                 (fun _ => ([ex_pod3], None))))
      5 (ex_oneagent 15 ex_env) [ex_pod1; ex_pod2] start = Done None s'.
Proof.
  destruct (@deletePods_confirmed _ _
              (scripted (ex_script_restart (fun _ => None) (fun _ => ([ex_pod3], None))))
              5 (ex_oneagent 15 ex_env) [ex_pod1; ex_pod2] 15 start)
    as (s' & Hout & _).
  - reflexivity.
  - lia.
  - lia.
  - intros pod w. reflexivity.
  - intros pod w. exists ex_pod3. split; reflexivity.
  - exists s'. exact Hout.
Defined.

Lemma deletePods_never_confirmed_witness :
  exists e s',
    @deletePods _ _ (scripted (ex_script_restart (fun _ => None)
                                 (fun _ => ([], Some (ApiError false "timeout")))))
      5 (ex_oneagent 15 ex_env) (ex_pod1 :: [ex_pod2]) start = Done (Some e) s'.
Proof.
  destruct (@deletePods_never_confirmed _ _
              (scripted (ex_script_restart (fun _ => None)
                           (fun _ => ([], Some (ApiError false "timeout")))))
              5 (ex_oneagent 15 ex_env) ex_pod1 [ex_pod2] 15 start)
    as (e & s' & Hout & _).
  - reflexivity.
  - lia.
  - vm_compute. lia.
  - reflexivity.
  - intros w. left. discriminate.
  - exists e, s'. exact Hout.
Defined.

Lemma HandleOneAgent_write_last_witness :
  exists cr err evs,
    emitted start (@HandleOneAgent _ _ (scripted ex_script) 5 (ex_oneagent 15 ex_env) start)
      = (evs ++ [EvUpdateOneAgent cr err])%list.
Proof.
  assert (Hin : exists cr err,
            EvUpdateOneAgent cr err
              ∈ emitted start (@HandleOneAgent _ _ (scripted ex_script) 5
                                 (ex_oneagent 15 ex_env) start))
    by (eexists _, _; vm_compute; repeat constructor).
  destruct Hin as (cr & err & Hin).
  destruct (@HandleOneAgent_write_last _ _ (scripted ex_script) 5 (ex_oneagent 15 ex_env)
              start cr err Hin) as (evs & Hem & _).
  exists cr, err, evs. exact Hem.
Defined.

Lemma HandleOneAgent_deletes_after_queries_witness :
  exists evs1 desired ns ops pods evs2,
    emitted start (@HandleOneAgent _ _ (scripted ex_script) 5 (ex_oneagent 15 ex_env) start)
      = (evs1 ++ EvGetVersionForLatest desired None
              :: EvListPods ns ops pods None :: evs2)%list.
Proof.
  destruct (@HandleOneAgent_deletes_after_queries _ _ (scripted ex_script) 5
              (ex_oneagent 15 ex_env) start)
    as (evs1 & desired & ns & ops & pods & evs2 & Hem & _).
  - vm_compute. discriminate.
  - exists evs1, desired, ns, ops, pods, evs2. exact Hem.
Defined.

Lemma HandleOneAgent_token_missing_witness :
  exists o s',
    @HandleOneAgent _ _ (scripted ex_script_no_secret) 5 (ex_oneagent 15 ex_env) start
      = Done (o, Some (ApiError true "secret not found")) s'.
Proof.
  destruct (@HandleOneAgent_token_missing _ _ (scripted ex_script_no_secret) 5
              (ex_oneagent 15 ex_env) start) as (H1 & _).
  assert (Hs : exists s1,
            @getSecretKey _ _ (scripted ex_script_no_secret)
              (defaultTokens (ex_oneagent 15 ex_env) false).1 "paasToken" start
              = Done (EmptyString, Some (ApiError true "secret not found")) s1)
    by (eexists; reflexivity).
  destruct Hs as (s1 & Hs).
  exists (defaultTokens (ex_oneagent 15 ex_env) false).1, s1.
  exact (proj1 (H1 _ _ _ Hs)).
Defined.

Lemma HandleOneAgent_steady_witness :
  exists s',
    @HandleOneAgent _ _ (scripted ex_script_steady) 5 ex_oneagent_steady start
      = Done (ex_oneagent_steady, None) s'.
Proof.
  destruct (@HandleOneAgent_steady _ _ (scripted ex_script_steady) 5 ex_oneagent_steady
              start (<["paasToken" := "p"]> (<["apiToken" := "a"]> ∅)) "p" "a"
              (installerTokenVar "oneagent") ex_daemonset_steady tt [ex_pod1; ex_pod2])
    as (s' & Hout & _).
  - discriminate.
  - reflexivity.
  - reflexivity.
  - intros ns name w. reflexivity.
  - vm_compute. reflexivity.
  - vm_compute. reflexivity.
  - intros ds w. reflexivity.
  - vm_compute. reflexivity.
  - intros url a p w. reflexivity.
  - intros w. reflexivity.
  - intros w. reflexivity.
  - intros ip w. reflexivity.
  - reflexivity.
  - exists s'. exact Hout.
Defined.
